(** * WhatsApp Cloud API webhook receiver (index.js)

    A shallow embedding of the webhook receiver: the signature middleware
    [verifySignature], the GET handshake, the POST event handler and the
    outbound sender [sendTextMessage], together with the Node primitives they
    call (hex Buffers, HMAC-SHA256, [crypto.timingSafeEqual]).

    Conventions.
    - A Buffer is a [list byte]; a JavaScript string is a [string] holding
      its UTF-8 bytes.
    - [undefined] is [None] in [jsval := option json]; values produced by
      JSON.parse are the inhabitants of [json].
    - A JavaScript statement sequence that may throw and that performs
      outbound effects is a computation in the monad [M], a writer of
      [event]s with exceptions.
    - console.log / console.warn / console.error calls are not recorded; the
      evaluation of their arguments is, where it can throw. *)

From Stdlib Require Import ZArith List String Ascii Bool Lia.
From Stdlib Require Import Init.Byte DecimalString.
Import ListNotations.

Local Open Scope string_scope.
Local Open Scope list_scope.
Local Open Scope Z_scope.

(** ** Buffers and the hex encoding *)

Module Buffer.

Definition t := list byte.

Definition byte_to_Z (b : byte) : Z := Z.of_N (Byte.to_N b).

Definition byte_of_Z (z : Z) : byte :=
  match Byte.of_N (Z.to_N (z mod 256)) with
  | Some b => b
  | None => x00
  end.

(** Buffer.from(str, 'utf8'): the string already holds its bytes. *)
Definition from_utf8 (s : string) : t := list_byte_of_string s.

Definition hex_digit (n : Z) : ascii :=
  if n <? 10 then ascii_of_N (Z.to_N (48 + n))
  else ascii_of_N (Z.to_N (87 + n)).

(** buf.toString('hex') and hmac.digest('hex'): two lower-case digits per
    byte. *)
Fixpoint to_hex (b : t) : string :=
  match b with
  | [] => EmptyString
  | x :: rest =>
      let z := byte_to_Z x in
      String (hex_digit (Z.shiftr z 4))
        (String (hex_digit (Z.land z 15)) (to_hex rest))
  end.

(** Node's unhex: digits, a-f and A-F; anything else is not a digit. *)
Definition unhex (c : ascii) : option Z :=
  let n := Z.of_N (N_of_ascii c) in
  if (48 <=? n) && (n <=? 57) then Some (n - 48)
  else if (97 <=? n) && (n <=? 102) then Some (n - 87)
  else if (65 <=? n) && (n <=? 70) then Some (n - 55)
  else None.

(** Buffer.from(str, 'hex'): pairs of digits are decoded until the input
    runs out or a pair holds a character that is not a hex digit; a
    trailing single character is dropped.  It never throws. *)
Fixpoint from_hex (s : string) : t :=
  match s with
  | String a (String b rest) =>
      match unhex a, unhex b with
      | Some hi, Some lo => byte_of_Z (Z.lor (Z.shiftl hi 4) lo) :: from_hex rest
      | _, _ => []
      end
  | _ => []
  end.

End Buffer.

(** ** SHA-256 (FIPS 180-4) and HMAC (RFC 2104), as node:crypto computes
    them.  Words are 32-bit integers in [Z], reduced after every addition
    and left shift. *)

Module SHA256.

Definition w32 : Z := 2 ^ 32.

Definition add32 (x y : Z) : Z := (x + y) mod w32.

Definition rotr (n x : Z) : Z :=
  Z.lor (Z.shiftr x n) ((Z.shiftl x (32 - n)) mod w32).

Definition not32 (x : Z) : Z := Z.lxor x (w32 - 1).

Definition Ch (x y z : Z) : Z := Z.lxor (Z.land x y) (Z.land (not32 x) z).
Definition Maj (x y z : Z) : Z :=
  Z.lxor (Z.lxor (Z.land x y) (Z.land x z)) (Z.land y z).
Definition bsig0 (x : Z) : Z := Z.lxor (Z.lxor (rotr 2 x) (rotr 13 x)) (rotr 22 x).
Definition bsig1 (x : Z) : Z := Z.lxor (Z.lxor (rotr 6 x) (rotr 11 x)) (rotr 25 x).
Definition ssig0 (x : Z) : Z := Z.lxor (Z.lxor (rotr 7 x) (rotr 18 x)) (Z.shiftr x 3).
Definition ssig1 (x : Z) : Z := Z.lxor (Z.lxor (rotr 17 x) (rotr 19 x)) (Z.shiftr x 10).

(** Round constants, in decimal. *)
Definition round_constants : list Z :=
  [ 1116352408; 1899447441; 3049323471; 3921009573; 961987163; 1508970993;
    2453635748; 2870763221; 3624381080; 310598401; 607225278; 1426881987;
    1925078388; 2162078206; 2614888103; 3248222580; 3835390401; 4022224774;
    264347078; 604807628; 770255983; 1249150122; 1555081692; 1996064986;
    2554220882; 2821834349; 2952996808; 3210313671; 3336571891; 3584528711;
    113926993; 338241895; 666307205; 773529912; 1294757372; 1396182291;
    1695183700; 1986661051; 2177026350; 2456956037; 2730485921; 2820302411;
    3259730800; 3345764771; 3516065817; 3600352804; 4094571909; 275423344;
    430227734; 506948616; 659060556; 883997877; 958139571; 1322822218;
    1537002063; 1747873779; 1955562222; 2024104815; 2227730452; 2361852424;
    2428436474; 2756734187; 3204031479; 3329325298 ].

Record state := mkState
  { sa : Z; sb : Z; sc : Z; sd : Z; se : Z; sf : Z; sg : Z; sh : Z }.

Definition initial : state :=
  mkState 1779033703 3144134277 1013904242 2773480762
          1359893119 2600822924 528734635 1541459225.

(** Padding: 0x80, zeros up to 56 mod 64, then the bit length on 8 bytes. *)
Definition be_bytes (n : nat) (v : Z) : list Z :=
  map (fun i => Z.land (Z.shiftr v (8 * Z.of_nat i)) 255) (rev (seq 0 n)).

Definition pad (msg : list Z) : list Z :=
  let len := Z.of_nat (List.length msg) in
  let zeros := Z.to_nat ((55 - len) mod 64) in
  msg ++ 128 :: repeat 0 zeros ++ be_bytes 8 (8 * len).

Definition be_word (a b c d : Z) : Z :=
  Z.lor (Z.lor (Z.shiftl a 24) (Z.shiftl b 16)) (Z.lor (Z.shiftl c 8) d).

Fixpoint words (bs : list Z) : list Z :=
  match bs with
  | a :: b :: c :: d :: rest => be_word a b c d :: words rest
  | _ => []
  end.

(** The message schedule, newest word first: [extend n r] adds [n] words
    to the reversed window [r]. *)
Fixpoint extend (n : nat) (r : list Z) : list Z :=
  match n with
  | O => r
  | S n' =>
      let wt := add32 (add32 (ssig1 (nth 1 r 0)) (nth 6 r 0))
                      (add32 (ssig0 (nth 14 r 0)) (nth 15 r 0)) in
      extend n' (wt :: r)
  end.

Definition schedule (block : list Z) : list Z :=
  rev (extend 48 (rev block)).

Definition round (s : state) (kw : Z * Z) : state :=
  let t1 := add32 (add32 (add32 (sh s) (bsig1 (se s)))
                         (add32 (Ch (se s) (sf s) (sg s)) (fst kw))) (snd kw) in
  let t2 := add32 (bsig0 (sa s)) (Maj (sa s) (sb s) (sc s)) in
  mkState (add32 t1 t2) (sa s) (sb s) (sc s) (add32 (sd s) t1) (se s) (sf s) (sg s).

Definition compress (s : state) (block : list Z) : state :=
  let r := fold_left round (combine round_constants (schedule block)) s in
  mkState (add32 (sa s) (sa r)) (add32 (sb s) (sb r)) (add32 (sc s) (sc r))
          (add32 (sd s) (sd r)) (add32 (se s) (se r)) (add32 (sf s) (sf r))
          (add32 (sg s) (sg r)) (add32 (sh s) (sh r)).

(** [blocks n ws] folds the compression over [n] blocks of 16 words. *)
Fixpoint blocks (n : nat) (ws : list Z) (s : state) : state :=
  match n with
  | O => s
  | S n' => blocks n' (skipn 16 ws) (compress s (firstn 16 ws))
  end.

Definition digest_bytes (s : state) : list Z :=
  flat_map (be_bytes 4) [sa s; sb s; sc s; sd s; se s; sf s; sg s; sh s].

Definition hashZ (msg : list Z) : list Z :=
  let ws := words (pad msg) in
  digest_bytes (blocks (Nat.div (List.length ws) 16) ws initial).

Definition hash (msg : Buffer.t) : Buffer.t :=
  map Buffer.byte_of_Z (hashZ (map Buffer.byte_to_Z msg)).

End SHA256.

Module HMAC.

Definition block_size : nat := 64.

Definition normalise_key (key : list Z) : list Z :=
  let k := if Nat.ltb block_size (List.length key) then SHA256.hashZ key else key in
  k ++ repeat 0 (block_size - List.length k).

Definition xor_pad (p : Z) (key : list Z) : list Z := map (Z.lxor p) key.

Definition hmacZ (key msg : list Z) : list Z :=
  let k := normalise_key key in
  SHA256.hashZ (xor_pad 92 k ++ SHA256.hashZ (xor_pad 54 k ++ msg)).

(** crypto.createHmac('sha256', key).update(data).digest() *)
Definition hmac_sha256 (key : string) (data : Buffer.t) : Buffer.t :=
  map Buffer.byte_of_Z
      (hmacZ (map Buffer.byte_to_Z (Buffer.from_utf8 key))
             (map Buffer.byte_to_Z data)).

(** ... .digest('hex') *)
Definition hmac_hex (key : string) (data : Buffer.t) : string :=
  Buffer.to_hex (hmac_sha256 key data).

End HMAC.

(** ** JavaScript values and completions *)

(** What JSON.parse builds.  [JNum n] stands for a number that is an
    integer of magnitude below 2^53, which JavaScript prints by its decimal
    digits; fractions and larger numbers are outside the model.  The handlers
    only test a number for truthiness and print it.  [fields] lists the own
    properties of an object, in insertion order. *)
#[warnings="-register-all"]
Inductive json : Type :=
| JNull
| JBool (b : bool)
| JNum (n : Z)
| JStr (s : string)
| JArr (items : list json)
| JObj (fields : list (string * json)).

(** A JavaScript value read from parsed data: [None] is [undefined]. *)
Definition jsval := option json.

Inductive js_error : Type :=
| TypeError
| RangeError
| AxiosError (response_data : option json).

Inductive completion (A : Type) : Type :=
| Normal (a : A)
| Throw (e : js_error).
Arguments Normal {A} a.
Arguments Throw {A} e.

Fixpoint assoc {A : Type} (k : string) (l : list (string * A)) : option A :=
  match l with
  | [] => None
  | (k', v) :: rest => if String.eqb k k' then Some v else assoc k rest
  end.

(** ToBoolean *)
Definition truthy (v : jsval) : bool :=
  match v with
  | None | Some JNull => false
  | Some (JBool b) => b
  | Some (JNum n) => negb (n =? 0)
  | Some (JStr s) => negb (String.eqb s EmptyString)
  | Some (JArr _) | Some (JObj _) => true
  end.

(** [v === 'literal'] *)
Definition strict_eq_str (v : jsval) (lit : string) : bool :=
  match v with
  | Some (JStr s) => String.eqb s lit
  | _ => false
  end.

(** [v === E] for a value [E] read from process.env, which is a string or
    undefined. *)
Definition strict_eq_env (v : jsval) (e : option string) : bool :=
  match v, e with
  | None, None => true
  | Some (JStr s), Some s' => String.eqb s s'
  | _, _ => false
  end.

(** [!E] for a value read from process.env. *)
Definition env_truthy (e : option string) : bool :=
  match e with
  | Some s => negb (String.eqb s EmptyString)
  | None => false
  end.

Definition join_with (sep : string) (parts : list string) : string :=
  match parts with
  | [] => EmptyString
  | p :: rest => fold_left (fun acc q => String.append (String.append acc sep) q) rest p
  end.

Fixpoint sequence {A : Type} (l : list (completion A)) : completion (list A) :=
  match l with
  | [] => Normal []
  | Normal a :: rest =>
      match sequence rest with
      | Normal r => Normal (a :: r)
      | Throw e => Throw e
      end
  | Throw e :: _ => Throw e
  end.

(** ToString, as a template literal applies it.  An object from JSON.parse
    whose own property toString shadows Object.prototype.toString holds a
    value that is not callable, and the valueOf fallback does not yield a
    primitive: the conversion throws a TypeError.  An array is joined with
    commas, null elements printing as the empty string. *)
Fixpoint ToString_json (j : json) : completion string :=
  match j with
  | JNull => Normal "null"
  | JBool true => Normal "true"
  | JBool false => Normal "false"
  | JNum n => Normal (NilZero.string_of_int (Z.to_int n))
  | JStr s => Normal s
  | JArr items =>
      match sequence (map (fun x => match x with
                                    | JNull => Normal EmptyString
                                    | _ => ToString_json x
                                    end) items) with
      | Normal parts => Normal (join_with "," parts)
      | Throw e => Throw e
      end
  | JObj fields =>
      match assoc "toString" fields with
      | Some _ => Throw TypeError
      | None => Normal "[object Object]"
      end
  end.

Definition ToString (v : jsval) : completion string :=
  match v with
  | None => Normal "undefined"
  | Some j => ToString_json j
  end.

(** ** Configuration and outbound effects *)

Record config := mkConfig
  { VERIFY_TOKEN : option string;
    APP_SECRET : option string;
    WHATSAPP_TOKEN : option string;
    PHONE_NUMBER_ID : option string }.

(** The body handed to axios.post by [sendTextMessage]. *)
Record text_message := mkTextMessage
  { messaging_product : string;
    recipient_type : string;
    to : jsval;
    type : string;
    text_body : string }.

Record axios_request := mkAxiosRequest
  { url : string;
    data : text_message;
    Authorization : string;
    Content_Type : string }.

(** What the handlers do to the outside: a call of [sendTextMessage] and an
    axios.post that was started. *)
Inductive event : Type :=
| Call_sendTextMessage (recipient : jsval) (messageText : string)
| Axios_post (r : axios_request).

(** The reply to an axios.post, as the awaiting code sees it. *)
Inductive axios_reply : Type :=
| Reply_2xx
| Reply_rejected (e : js_error).

(** ** The monad of handler code: events written so far, and a completion *)

Record M (A : Type) : Type := mkM
  { result : completion A;
    trace : list event }.
Arguments mkM {A} result trace.
Arguments result {A} m.
Arguments trace {A} m.

Definition ret {A : Type} (a : A) : M A := mkM (Normal a) [].
Definition throw {A : Type} (e : js_error) : M A := mkM (Throw e) [].
Definition emit (ev : event) : M unit := mkM (Normal tt) [ev].
Definition lift {A : Type} (c : completion A) : M A := mkM c [].

Definition bind {A B : Type} (m : M A) (k : A -> M B) : M B :=
  match result m with
  | Normal a => let n := k a in mkM (result n) (trace m ++ trace n)
  | Throw e => mkM (Throw e) (trace m)
  end.

(** try { m } catch (error) { handler error } *)
Definition try_catch {A : Type} (m : M A) (handler : js_error -> M A) : M A :=
  match result m with
  | Normal _ => m
  | Throw e => let n := handler e in mkM (result n) (trace m ++ trace n)
  end.

Declare Scope js_scope.
Delimit Scope js_scope with js.
Notation "x <- m ;; k" := (bind m (fun x => k))
  (at level 61, m at next level, right associativity) : js_scope.
Notation "m ;;; k" := (bind m (fun _ => k))
  (at level 61, right associativity) : js_scope.
Local Open Scope js_scope.

(** [v.k], for the property names the handlers read (object, entry, changes,
    value, field, messages, from, text, body): none of them is defined on a
    prototype, so the read finds an own property of an object or yields
    undefined; on undefined and null it throws. *)
Definition get_prop (v : jsval) (k : string) : M jsval :=
  match v with
  | None | Some JNull => throw TypeError
  | Some (JObj fields) => ret (assoc k fields)
  | Some _ => ret None
  end.

(** [v?.k] *)
Definition get_prop_opt (v : jsval) (k : string) : M jsval :=
  match v with
  | None | Some JNull => ret None
  | _ => get_prop v k
  end.

(** [a || b] *)
Definition or_else (a b : jsval) : jsval := if truthy a then a else b.

Fixpoint iterate (cb : json -> M unit) (items : list json) : M unit :=
  match items with
  | [] => ret tt
  | x :: rest => cb x ;;; iterate cb rest
  end.

(** [v.forEach(cb)]: only an array has a callable forEach; on anything else
    the call throws a TypeError. *)
Definition forEach (v : jsval) (cb : json -> M unit) : M unit :=
  match v with
  | Some (JArr items) => iterate cb items
  | _ => throw TypeError
  end.

(** ** index.js *)

Local Infix "+++" := String.append (right associativity, at level 60).

(** A template literal prints a process.env value that is unset as
    undefined. *)
Definition env_text (e : option string) : string :=
  match e with
  | Some s => s
  | None => "undefined"
  end.

(** The state of the promise an async call hands back to its caller. *)
Inductive promise : Type :=
| Fulfilled
| Rejected (e : js_error)
| Pending.

(** [sendTextMessage], up to its await: the caller gets the promise as soon
    as axios.post has been started. *)
Definition sendTextMessage (cfg : config) (to : jsval) (messageText : string)
  : M promise :=
  emit (Call_sendTextMessage to messageText) ;;;
  if negb (env_truthy (WHATSAPP_TOKEN cfg)) || negb (env_truthy (PHONE_NUMBER_ID cfg))
  then ret Fulfilled
  else
    let url :=
      "https://graph.facebook.com/v19.0/" +++ env_text (PHONE_NUMBER_ID cfg)
        +++ "/messages" in
    emit (Axios_post
            (mkAxiosRequest url
               (mkTextMessage "whatsapp" "individual" to "text" messageText)
               ("Bearer " +++ env_text (WHATSAPP_TOKEN cfg))
               "application/json")) ;;;
    ret Pending.

(** [sendTextMessage], from the await on: the rest of the try block once
    the reply is in, and the catch block. *)
Definition sendTextMessage_resumed (to : jsval) (reply : axios_reply) : M unit :=
  try_catch
    (match reply with
     | Reply_2xx => _ <- lift (ToString to) ;; ret tt
     | Reply_rejected e => throw e
     end)
    (fun error => ret tt).

Definition settle (m : M unit) : promise :=
  match result m with
  | Normal _ => Fulfilled
  | Throw e => Rejected e
  end.

Record request := mkRequest
  { X_Hub_Signature_256 : option string;
    rawBody : option Buffer.t;
    body : jsval }.

Inductive response : Type :=
| sendStatus (code : Z)
| status_send (code : Z) (payload : jsval).

Definition status_of (r : response) : Z :=
  match r with
  | sendStatus c => c
  | status_send c _ => c
  end.

Inductive middleware : Type :=
| next
| respond (r : response).

Definition expectedPrefix : string := "sha256=".

(** [s.slice(n)] *)
Fixpoint slice (n : nat) (s : string) : string :=
  match n, s with
  | O, _ => s
  | S n', String _ rest => slice n' rest
  | S _, EmptyString => EmptyString
  end.

(** crypto.timingSafeEqual: throws on buffers of different lengths;
    otherwise folds every byte pair into one accumulator and tests it at
    the end. *)
Definition fold_xor (acc : Z) (xy : byte * byte) : Z :=
  Z.lor acc (Z.lxor (Buffer.byte_to_Z (fst xy)) (Buffer.byte_to_Z (snd xy))).

Definition timingSafeEqual (a b : Buffer.t) : completion bool :=
  if Nat.eqb (List.length a) (List.length b)
  then Normal (fold_left fold_xor (combine a b) 0 =? 0)
  else Throw RangeError.

(** The body of the try block of [verifySignature]: [Normal true] when the
    if statement inside it answers 401. *)
Definition signature_mismatch (receivedSignatureHex computedDigestHex : string)
  : completion bool :=
  let bufSig := Buffer.from_hex receivedSignatureHex in
  let bufDigest := Buffer.from_hex computedDigestHex in
  if negb (Nat.eqb (List.length bufSig) (List.length bufDigest)) then Normal true
  else match timingSafeEqual bufSig bufDigest with
       | Normal same => Normal (negb same)
       | Throw e => Throw e
       end.

Definition verifySignature (cfg : config) (req : request) : middleware :=
  match X_Hub_Signature_256 req with
  | None => respond (sendStatus 401)
  | Some signatureHeader =>
      if String.eqb signatureHeader EmptyString
         || negb (String.prefix expectedPrefix signatureHeader)
      then respond (sendStatus 401)
      else
        let receivedSignatureHex :=
          slice (String.length expectedPrefix) signatureHeader in
        match rawBody req with
        | None => respond (sendStatus 500)
        | Some rawBodyBuffer =>
            if negb (env_truthy (APP_SECRET cfg)) then respond (sendStatus 500)
            else
              let computedDigestHex :=
                HMAC.hmac_hex (env_text (APP_SECRET cfg)) rawBodyBuffer in
              match signature_mismatch receivedSignatureHex computedDigestHex with
              | Normal true => respond (sendStatus 401)
              | Normal false => next
              | Throw _ => respond (sendStatus 401)
              end
        end
  end.

(** app.get('/webhook', ...) *)
Record query := mkQuery
  { hub_mode : jsval;
    hub_verify_token : jsval;
    hub_challenge : jsval }.

Definition get_webhook (cfg : config) (q : query) : response :=
  let mode := hub_mode q in
  let token := hub_verify_token q in
  let challenge := hub_challenge q in
  if strict_eq_str mode "subscribe" && strict_eq_env token (VERIFY_TOKEN cfg)
  then status_send 200 challenge
  else sendStatus 403.

(** app.post('/webhook', verifySignature, ...) *)
Definition dquote : string := String "034"%char EmptyString.

Definition replyMessage (incomingText : string) : string :=
  "Hello! I see you sent: " +++ dquote +++ incomingText +++ dquote
    +++ ". I am your Node.js automated bot. Thanks for texting!".

Definition on_message (cfg : config) (message : json) : M unit :=
  from <- get_prop (Some message) "from" ;;
  text <- get_prop (Some message) "text" ;;
  text_body <- get_prop_opt text "body" ;;
  let incomingText := or_else text_body (Some (JStr "No Text Body")) in
  _ <- lift (ToString incomingText) ;;
  _ <- lift (ToString from) ;;
  shown <- lift (ToString incomingText) ;;
  _ <- sendTextMessage cfg from (replyMessage shown) ;;
  ret tt.

Definition on_change (cfg : config) (change : json) : M unit :=
  value <- get_prop (Some change) "value" ;;
  field <- get_prop (Some change) "field" ;;
  if strict_eq_str field "messages" then
    messages <- get_prop value "messages" ;;
    if truthy messages then
      messages' <- get_prop value "messages" ;;
      forEach messages' (on_message cfg)
    else ret tt
  else ret tt.

Definition on_entry (cfg : config) (entry : json) : M unit :=
  changes <- get_prop (Some entry) "changes" ;;
  forEach changes (on_change cfg).

Definition business_account : string := "whatsapp_business_account".

Definition post_webhook_handler (cfg : config) (req : request) : M response :=
  let body := body req in
  object <- get_prop body "object" ;;
  (if strict_eq_str object business_account then
     entry <- get_prop body "entry" ;;
     forEach entry (on_entry cfg)
   else ret tt) ;;;
  ret (sendStatus 200).

(** The route: the handler runs only when the middleware calls next().  A
    [Throw] result is an exception that leaves the handler; the response is
    then left to the framework's error handler. *)
Definition post_webhook (cfg : config) (req : request) : M response :=
  match verifySignature cfg req with
  | respond r => ret r
  | next => post_webhook_handler cfg req
  end.

Fixpoint calls (tr : list event) : list (jsval * string) :=
  match tr with
  | [] => []
  | Call_sendTextMessage recipient messageText :: rest =>
      (recipient, messageText) :: calls rest
  | Axios_post _ :: rest => calls rest
  end.

Fixpoint posts (tr : list event) : list axios_request :=
  match tr with
  | [] => []
  | Axios_post r :: rest => r :: posts rest
  | Call_sendTextMessage _ _ :: rest => posts rest
  end.

(** One request seen from outside: the answer of the route, what it
    started before answering, and, once the network has replied to every
    axios.post, how each pending promise settled and what the resumed calls
    did. *)
Record report := mkReport
  { answered : completion response;
    started : list event;
    settled : list promise;
    afterwards : list event }.

Definition serve (cfg : config) (net : axios_request -> axios_reply)
  (req : request) : report :=
  let sync := post_webhook cfg req in
  let resumed :=
    map (fun r => sendTextMessage_resumed (to (data r)) (net r))
        (posts (trace sync)) in
  mkReport (result sync) (trace sync) (map settle resumed)
           (flat_map (fun m => trace m) resumed).

(** ** The envelope as the specification describes it *)

(** An Inbound Message: the sender and the text, [None] standing for an
    absent one. *)
Record InboundMessage := mkInbound
  { im_from : jsval;
    im_text : jsval }.

(** Accessors that tolerate absence: a field of something that is not an
    object is absent, the items of something that is not a list are none. *)
Definition field_of (k : string) (v : jsval) : jsval :=
  match v with
  | Some (JObj fields) => assoc k fields
  | _ => None
  end.

Definition items_of (v : jsval) : list json :=
  match v with
  | Some (JArr items) => items
  | _ => []
  end.

Definition spec_message (m : json) : InboundMessage :=
  mkInbound (field_of "from" (Some m)) (field_of "body" (field_of "text" (Some m))).

Definition spec_change_messages (c : json) : list InboundMessage :=
  if strict_eq_str (field_of "field" (Some c)) "messages"
  then map spec_message (items_of (field_of "messages" (field_of "value" (Some c))))
  else [].

(** The traversal rule of the Event Extractor, written from the
    specification: nothing unless object is the business account; then, entry
    by entry and change by change, the messages of the changes whose field is
    messages. *)
Definition spec_extract (b : json) : list InboundMessage :=
  if strict_eq_str (field_of "object" (Some b)) business_account
  then flat_map
         (fun e => flat_map spec_change_messages (items_of (field_of "changes" (Some e))))
         (items_of (field_of "entry" (Some b)))
  else [].

(** The text the reply quotes for an Inbound Message. *)
Definition quoted_text (m : InboundMessage) : string :=
  match im_text m with
  | Some (JStr s) => if String.eqb s EmptyString then "No Text Body" else s
  | _ => "No Text Body"
  end.

(** The Outbound Reply owed to an Inbound Message. *)
Definition reply_to (m : InboundMessage) : jsval * string :=
  (im_from m, replyMessage (quoted_text m)).

(** The events of the send owed to an Inbound Message. *)
Definition send_events (cfg : config) (m : InboundMessage) : list event :=
  trace (sendTextMessage cfg (im_from m) (replyMessage (quoted_text m))).

(** The Webhook Envelope shape of the data model:
    { object: string, entry: [ { changes: [ { field: string, value: object } ] } ] },
    where the messages of a messages change, when present, are a list of
    objects with a string from and, when text is present, an object whose
    body, when present, is a string. *)
Definition is_string (v : jsval) : bool :=
  match v with
  | Some (JStr _) => true
  | _ => false
  end.

Definition wf_message (m : json) : bool :=
  match m with
  | JObj f =>
      is_string (assoc "from" f)
      && match assoc "text" f with
         | None => true
         | Some (JObj t) =>
             match assoc "body" t with
             | None | Some (JStr _) => true
             | Some _ => false
             end
         | Some _ => false
         end
  | _ => false
  end.

Definition wf_change (c : json) : bool :=
  match c with
  | JObj f =>
      match assoc "field" f, assoc "value" f with
      | Some (JStr fld), Some (JObj v) =>
          if String.eqb fld "messages" then
            match assoc "messages" v with
            | None => true
            | Some (JArr ms) => forallb wf_message ms
            | Some _ => false
            end
          else true
      | _, _ => false
      end
  | _ => false
  end.

Definition wf_entry (e : json) : bool :=
  match e with
  | JObj f =>
      match assoc "changes" f with
      | Some (JArr cs) => forallb wf_change cs
      | _ => false
      end
  | _ => false
  end.

Definition wf_envelope (b : json) : bool :=
  match b with
  | JObj f =>
      is_string (assoc "object" f)
      && match assoc "entry" f with
         | Some (JArr es) => forallb wf_entry es
         | _ => false
         end
  | _ => false
  end.

(** ** Sample data *)

Definition sample_secret : string := "s3cret".

Definition sample_config : config :=
  mkConfig (Some "verify-me") (Some sample_secret) (Some "EAAG-token") (Some "1098765").

Definition unconfigured : config := mkConfig None None None None.

Definition sign (secret : string) (raw : Buffer.t) : string :=
  expectedPrefix +++ HMAC.hmac_hex secret raw.

(** The compact JSON text of a value, for sample data: strings are
    written between quotes as they are, so it is only used on strings that
    need no escape. *)
Fixpoint json_text (j : json) : string :=
  match j with
  | JNull => "null"
  | JBool true => "true"
  | JBool false => "false"
  | JNum n => NilZero.string_of_int (Z.to_int n)
  | JStr s => dquote +++ s +++ dquote
  | JArr items => "[" +++ join_with "," (map json_text items) +++ "]"
  | JObj fields =>
      "{" +++ join_with ","
                (map (fun kv => dquote +++ fst kv +++ dquote +++ ":" +++ json_text (snd kv))
                     fields)
          +++ "}"
  end.

(** A POST carrying [parsed], signed under [secret]. *)
Definition signed_request (secret : string) (parsed : json) : request :=
  let bytes := Buffer.from_utf8 (json_text parsed) in
  mkRequest (Some (sign secret bytes)) (Some bytes) (Some parsed).

Definition sample_message : json :=
  JObj [("from", JStr "1555"); ("id", JStr "wamid.1");
        ("text", JObj [("body", JStr "hi")]); ("type", JStr "text")].

Definition sample_image : json :=
  JObj [("from", JStr "1777"); ("type", JStr "image")].

Definition sample_envelope : json :=
  JObj [("object", JStr business_account);
        ("entry",
         JArr [JObj [("id", JStr "42");
                     ("changes",
                      JArr [JObj [("value",
                                   JObj [("messaging_product", JStr "whatsapp");
                                         ("messages", JArr [sample_message; sample_image])]);
                                  ("field", JStr "messages")];
                            JObj [("value", JObj [("statuses", JArr [JObj []])]);
                                  ("field", JStr "message_statuses")]])]])].

(** An envelope of the business account with no entry field. *)
Definition entryless_envelope : json := JObj [("object", JStr business_account)].

Definition other_envelope : json := JObj [("object", JStr "page"); ("entry", JArr [])].

(** ** The request of the sender and the footprint of its calls *)

(** Both credentials are set: the negation of the guard that opens
    [sendTextMessage]. *)
Definition credentials (cfg : config) : bool :=
  env_truthy (WHATSAPP_TOKEN cfg) && env_truthy (PHONE_NUMBER_ID cfg).

(** The arguments [sendTextMessage] hands to axios.post. *)
Definition outbound_request (cfg : config) (recipient : jsval) (messageText : string)
  : axios_request :=
  mkAxiosRequest
    ("https://graph.facebook.com/v19.0/" +++ env_text (PHONE_NUMBER_ID cfg) +++ "/messages")
    (mkTextMessage "whatsapp" "individual" recipient "text" messageText)
    ("Bearer " +++ env_text (WHATSAPP_TOKEN cfg))
    "application/json".

(** The events of a series of calls of [sendTextMessage]. *)
Definition sent (cfg : config) (l : list (jsval * string)) : list event :=
  flat_map (fun c => trace (sendTextMessage cfg (fst c) (snd c))) l.

(** A computation whose events are all the doing of [sendTextMessage]. *)
Definition sends_only {A : Type} (cfg : config) (m : M A) : Prop :=
  trace m = sent cfg (calls (trace m)).

(** A delivery of the business account with one entry and one messages
    change that carries the messages [ms]. *)
Definition messages_envelope (ms : list json) : json :=
  JObj [("object", JStr business_account);
        ("entry",
         JArr [JObj [("changes",
                      JArr [JObj [("value", JObj [("messages", JArr ms)]);
                                  ("field", JStr "messages")]])]])].

(** ** The earlier receiver (src/unnamed/part_000)

    The same routes before the reply was added: the middleware has neither
    the guard on the secret and the raw body nor the try block, and the
    handler only logs the messages. *)

Module Part000.

(** crypto.createHmac('sha256', key).update(data).digest('hex'): createHmac
    refuses a key that is undefined and update refuses data that is
    undefined, each with a TypeError. *)
Definition hmac_digest_hex (key : option string) (data : option Buffer.t)
  : completion string :=
  match key with
  | None => Throw TypeError
  | Some k =>
      match data with
      | None => Throw TypeError
      | Some d => Normal (HMAC.hmac_hex k d)
      end
  end.

Definition verifySignature (cfg : config) (req : request) : completion middleware :=
  match X_Hub_Signature_256 req with
  | None => Normal (respond (sendStatus 401))
  | Some signatureHeader =>
      if String.eqb signatureHeader EmptyString then Normal (respond (sendStatus 401))
      else if negb (String.prefix expectedPrefix signatureHeader)
      then Normal (respond (sendStatus 401))
      else
        let signature := slice (String.length expectedPrefix) signatureHeader in
        match hmac_digest_hex (APP_SECRET cfg) (rawBody req) with
        | Throw e => Throw e
        | Normal digest =>
            match signature_mismatch signature digest with
            | Normal true => Normal (respond (sendStatus 401))
            | Normal false => Normal next
            | Throw e => Throw e
            end
        end
  end.

Definition on_message (message : json) : M unit :=
  from <- get_prop (Some message) "from" ;;
  text <- get_prop (Some message) "text" ;;
  msgBody <- get_prop_opt text "body" ;;
  _ <- lift (ToString from) ;;
  _ <- lift (ToString msgBody) ;;
  ret tt.

Definition on_change (change : json) : M unit :=
  value <- get_prop (Some change) "value" ;;
  field <- get_prop (Some change) "field" ;;
  (if strict_eq_str field "messages" then
     messages <- get_prop value "messages" ;;
     if truthy messages then
       messages' <- get_prop value "messages" ;;
       forEach messages' on_message
     else ret tt
   else ret tt) ;;;
  (if strict_eq_str field "message_statuses" then
     _ <- get_prop value "statuses" ;; ret tt
   else ret tt).

Definition on_entry (entry : json) : M unit :=
  changes <- get_prop (Some entry) "changes" ;;
  forEach changes on_change.

Definition post_webhook_handler (req : request) : M response :=
  let body := body req in
  object <- get_prop body "object" ;;
  (if strict_eq_str object business_account then
     entry <- get_prop body "entry" ;;
     forEach entry on_entry
   else ret tt) ;;;
  ret (sendStatus 200).

Definition post_webhook (cfg : config) (req : request) : M response :=
  match verifySignature cfg req with
  | Throw e => throw e
  | Normal (respond r) => ret r
  | Normal next => post_webhook_handler req
  end.

End Part000.

(** ** What a response puts on the wire *)

(** The status texts res.sendStatus sends as the body, for the codes the
    receiver uses. *)
Definition status_message (code : Z) : option string :=
  if code =? 200 then Some "OK"
  else if code =? 401 then Some "Unauthorized"
  else if code =? 403 then Some "Forbidden"
  else if code =? 500 then Some "Internal Server Error"
  else None.

(** The argument res.send receives: res.sendStatus(code) hands it the
    status text of the code, res.status(code).send(payload) the payload;
    [Some None] is a send of undefined, which writes no body.  [None] stands
    for a code outside [status_message]. *)
Definition send_argument (r : response) : option jsval :=
  match r with
  | sendStatus code =>
      match status_message code with
      | Some text => Some (Some (JStr text))
      | None => None
      end
  | status_send _ payload => Some payload
  end.

(** The response carries no body, or an empty one. *)
Definition empty_body (r : response) : Prop :=
  send_argument r = Some None \/ send_argument r = Some (Some (JStr EmptyString)).

(** [token === VERIFY_TOKEN], spelled out: the same string on both sides,
    or undefined on both sides. *)
Definition same_token (token : jsval) (configured : option string) : Prop :=
  (exists t, token = Some (JStr t) /\ configured = Some t)
  \/ (token = None /\ configured = None).

(** ** Statements of the specification, as worded *)

(** The acknowledgment of a well-formed, signed delivery: 200 with an
    empty body. *)
Definition acknowledged_with_empty_body : Prop :=
  forall (cfg : config) (net : axios_request -> axios_reply) (req : request) (b : json),
    verifySignature cfg req = next ->
    body req = Some b ->
    wf_envelope b = true ->
    exists r, answered (serve cfg net req) = Normal r
              /\ status_of r = 200
              /\ empty_body r.

(** The handshake: 200 with the challenge when the mode is subscribe and
    the token is the configured token, matched as strings; otherwise 403 with
    no body. *)
Definition handshake_by_string_match : Prop :=
  forall (cfg : config) (q : query),
    (hub_mode q = Some (JStr "subscribe")
     /\ (exists t, hub_verify_token q = Some (JStr t) /\ VERIFY_TOKEN cfg = Some t) ->
     get_webhook cfg q = status_send 200 (hub_challenge q))
    /\ (~ (hub_mode q = Some (JStr "subscribe")
           /\ (exists t, hub_verify_token q = Some (JStr t) /\ VERIFY_TOKEN cfg = Some t)) ->
        status_of (get_webhook cfg q) = 403 /\ empty_body (get_webhook cfg q)).

(** The signature round trip, for every body and every secret. *)
Definition roundtrip_for_every_secret : Prop :=
  forall (B : Buffer.t) (S : string) (cfg : config) (req : request),
    APP_SECRET cfg = Some S ->
    rawBody req = Some B ->
    X_Hub_Signature_256 req = Some (sign S B) ->
    verifySignature cfg req = next.

(** A missing shared secret is answered 500, whatever the request. *)
Definition missing_secret_always_500 : Prop :=
  forall (cfg : config) (req : request),
    APP_SECRET cfg = None ->
    result (post_webhook cfg req) = Normal (sendStatus 500).

(** * Properties *)

(** ** The crypto model against published test vectors *)

Example sha256_abc :
  Buffer.to_hex (SHA256.hash (Buffer.from_utf8 "abc"))
  = "ba7816bf8f01cfea414140de5dae2223b00361a396177a9cb410ff61f20015ad".
Proof. vm_compute. reflexivity. Qed.

Example sha256_empty :
  Buffer.to_hex (SHA256.hash [])
  = "e3b0c44298fc1c149afbf4c8996fb92427ae41e4649b934ca495991b7852b855".
Proof. vm_compute. reflexivity. Qed.

Example hmac_rfc4231_case2 :
  HMAC.hmac_hex "Jefe" (Buffer.from_utf8 "what do ya want for nothing?")
  = "5bdcc146bf60754e6a042426089575c75a003f089d2739839dec58b964ec3843".
Proof. vm_compute. reflexivity. Qed.

(** ** Buffers *)

Lemma hex_pair (x : byte) :
  let z := Buffer.byte_to_Z x in
  Buffer.unhex (Buffer.hex_digit (Z.shiftr z 4)) = Some (Z.shiftr z 4)
  /\ Buffer.unhex (Buffer.hex_digit (Z.land z 15)) = Some (Z.land z 15)
  /\ Buffer.byte_of_Z (Z.lor (Z.shiftl (Z.shiftr z 4) 4) (Z.land z 15)) = x.
Proof. destruct x; vm_compute; repeat split; reflexivity. Qed.

(** Decoding the hex form of a buffer gives the buffer back. *)
Lemma from_hex_to_hex (b : Buffer.t) : Buffer.from_hex (Buffer.to_hex b) = b.
Proof.
  induction b as [|x rest IH]; [reflexivity|].
  cbn [Buffer.to_hex Buffer.from_hex].
  destruct (hex_pair x) as (Hhi & Hlo & Hx).
  cbv zeta in Hhi, Hlo, Hx |- *.
  rewrite Hhi, Hlo, Hx, IH. reflexivity.
Qed.

Lemma byte_to_Z_inj (x y : byte) : Buffer.byte_to_Z x = Buffer.byte_to_Z y -> x = y.
Proof.
  unfold Buffer.byte_to_Z. intros H. apply N2Z.inj in H.
  assert (E : Byte.of_N (Byte.to_N x) = Byte.of_N (Byte.to_N y)) by (rewrite H; reflexivity).
  rewrite !Byte.of_to_N in E. congruence.
Qed.

Lemma fold_xor_zero (l : list (byte * byte)) :
  forall acc,
    fold_left fold_xor l acc = 0
    <-> acc = 0 /\ Forall (fun xy => fst xy = snd xy) l.
Proof.
  induction l as [|[x y] l IH]; intros acc; cbn [fold_left].
  - split; [intros ->; split; [reflexivity | constructor] | intros [-> _]; reflexivity].
  - rewrite IH. unfold fold_xor at 1. cbn [fst snd].
    rewrite Z.lor_eq_0_iff, Z.lxor_eq_0_iff. split.
    + intros [[-> E] F]. split; [reflexivity|].
      constructor; [exact (byte_to_Z_inj _ _ E) | exact F].
    + intros [-> F]. inversion F as [|? ? E F']; subst. cbn [fst snd] in E.
      subst. repeat split; assumption.
Qed.

Lemma combine_diag (a b : Buffer.t) :
  List.length a = List.length b ->
  Forall (fun xy : byte * byte => fst xy = snd xy) (combine a b) -> a = b.
Proof.
  revert b. induction a as [|x a IH]; intros [|y b] L F; try discriminate; [reflexivity|].
  cbn in L, F. inversion F as [|? ? E F']; subst. cbn in E. subst.
  f_equal. apply IH; [congruence | assumption].
Qed.

Lemma combine_same (a : Buffer.t) :
  Forall (fun xy : byte * byte => fst xy = snd xy) (combine a a).
Proof. induction a; cbn; constructor; auto. Qed.

(** On buffers of one length, [timingSafeEqual] decides equality. *)
Lemma timingSafeEqual_same (a : Buffer.t) : timingSafeEqual a a = Normal true.
Proof.
  unfold timingSafeEqual. rewrite Nat.eqb_refl. f_equal.
  apply Z.eqb_eq. apply (fold_xor_zero (combine a a) 0). split; [reflexivity|].
  apply combine_same.
Qed.

Lemma timingSafeEqual_diff (a b : Buffer.t) :
  List.length a = List.length b -> a <> b -> timingSafeEqual a b = Normal false.
Proof.
  intros L D. unfold timingSafeEqual. rewrite L, Nat.eqb_refl. f_equal.
  apply Z.eqb_neq. intros H.
  apply (fold_xor_zero (combine a b) 0) in H. destruct H as [_ F].
  apply D. apply combine_diag; assumption.
Qed.

Lemma signature_mismatch_same (r c : string) :
  Buffer.from_hex r = Buffer.from_hex c -> signature_mismatch r c = Normal false.
Proof.
  intros E. unfold signature_mismatch. rewrite E, Nat.eqb_refl. cbn [negb].
  rewrite timingSafeEqual_same. reflexivity.
Qed.

Lemma signature_mismatch_diff (r c : string) :
  Buffer.from_hex r <> Buffer.from_hex c -> signature_mismatch r c = Normal true.
Proof.
  intros D. unfold signature_mismatch.
  destruct (Nat.eqb (List.length (Buffer.from_hex r)) (List.length (Buffer.from_hex c))) eqn:L;
    cbn [negb]; [|reflexivity].
  apply Nat.eqb_eq in L. rewrite (timingSafeEqual_diff _ _ L D). reflexivity.
Qed.

(** ** The signature middleware *)

Lemma prefixed_not_empty (h : string) :
  String.prefix expectedPrefix h = true -> String.eqb h EmptyString = false.
Proof. destruct h; [discriminate | reflexivity]. Qed.

Lemma verifySignature_unprefixed (cfg : config) (req : request) :
  X_Hub_Signature_256 req = None
  \/ (exists h, X_Hub_Signature_256 req = Some h /\ String.prefix expectedPrefix h = false) ->
  verifySignature cfg req = respond (sendStatus 401).
Proof.
  unfold verifySignature. intros [-> | (h & -> & P)]; [reflexivity|].
  rewrite P. cbn [negb]. rewrite orb_true_r. reflexivity.
Qed.

Lemma verifySignature_prefixed (cfg : config) (req : request) (h : string) :
  X_Hub_Signature_256 req = Some h ->
  String.prefix expectedPrefix h = true ->
  verifySignature cfg req =
    match rawBody req with
    | None => respond (sendStatus 500)
    | Some raw =>
        if negb (env_truthy (APP_SECRET cfg)) then respond (sendStatus 500)
        else match signature_mismatch (slice 7 h)
                     (HMAC.hmac_hex (env_text (APP_SECRET cfg)) raw) with
             | Normal true => respond (sendStatus 401)
             | Normal false => next
             | Throw _ => respond (sendStatus 401)
             end
    end.
Proof.
  intros H P. unfold verifySignature. rewrite H, P, (prefixed_not_empty h P).
  reflexivity.
Qed.

Lemma verifySignature_unconfigured (cfg : config) (req : request) (h : string) :
  X_Hub_Signature_256 req = Some h ->
  String.prefix expectedPrefix h = true ->
  env_truthy (APP_SECRET cfg) = false ->
  verifySignature cfg req = respond (sendStatus 500).
Proof.
  intros H P S. rewrite (verifySignature_prefixed cfg req h H P), S.
  destruct (rawBody req); reflexivity.
Qed.

Lemma env_truthy_some (s : string) : s <> EmptyString -> env_truthy (Some s) = true.
Proof.
  intros N. cbn. apply negb_true_iff, String.eqb_neq. exact N.
Qed.

Lemma sign_prefixed (secret : string) (raw : Buffer.t) :
  String.prefix expectedPrefix (sign secret raw) = true
  /\ slice 7 (sign secret raw) = HMAC.hmac_hex secret raw.
Proof. split; reflexivity. Qed.

(** [C2], counterexample: with the empty string as the secret the guard
    [!APP_SECRET] fires, and the correctly signed empty body is answered 500
    instead of being passed on. *)
Lemma empty_secret_is_misconfiguration :
  verifySignature (mkConfig None (Some EmptyString) None None)
                  (mkRequest (Some (sign EmptyString [])) (Some []) None)
  = respond (sendStatus 500)
  /\ ~ roundtrip_for_every_secret.
Proof.
  assert (E : verifySignature (mkConfig None (Some EmptyString) None None)
                (mkRequest (Some (sign EmptyString [])) (Some []) None)
              = respond (sendStatus 500)).
  { apply (verifySignature_unconfigured _ _ (sign EmptyString []));
      [reflexivity | apply sign_prefixed | reflexivity]. }
  split; [exact E|].
  intros C.
  specialize (C [] EmptyString (mkConfig None (Some EmptyString) None None)
                (mkRequest (Some (sign EmptyString [])) (Some []) None)
                eq_refl eq_refl eq_refl).
  rewrite E in C. discriminate.
Qed.

Lemma signed_passes (B : Buffer.t) (S : string) (cfg : config) (req : request) :
  S <> EmptyString ->
  APP_SECRET cfg = Some S ->
  rawBody req = Some B ->
  X_Hub_Signature_256 req = Some (sign S B) ->
  verifySignature cfg req = next.
Proof.
  intros NE HS HB HH.
  destruct (sign_prefixed S B) as [P SL].
  rewrite (verifySignature_prefixed cfg req _ HH P), HB, HS, SL.
  rewrite (env_truthy_some S NE). cbn [negb env_text].
  rewrite signature_mismatch_same; reflexivity.
Qed.

Lemma signed_request_passes (parsed : json) :
  verifySignature sample_config (signed_request sample_secret parsed) = next.
Proof.
  apply (signed_passes (Buffer.from_utf8 (json_text parsed)) sample_secret);
    [discriminate | reflexivity | reflexivity | reflexivity].
Qed.

(** [C2], amended: for every body B and every secret S that is not the
    empty string, the middleware passes B on when the header is sha256=
    followed by the hex HMAC-SHA256 of B under S. *)
Theorem verifySignature_accepts_own_signature
  (B : Buffer.t) (S : string) (cfg : config) (req : request) :
  S <> EmptyString ->
  APP_SECRET cfg = Some S ->
  rawBody req = Some B ->
  X_Hub_Signature_256 req = Some (sign S B) ->
  verifySignature cfg req = next.
Proof.
  intros NE HS HB HH.
  destruct (sign_prefixed S B) as [P SL].
  rewrite (verifySignature_prefixed cfg req _ HH P), HB, HS, SL.
  rewrite (env_truthy_some S NE). cbn [negb env_text].
  rewrite (signature_mismatch_same (HMAC.hmac_hex S B) (HMAC.hmac_hex S B) eq_refl).
  reflexivity.
Qed.

Lemma verifySignature_accepts_own_signature_witness :
  sample_secret <> EmptyString
  /\ verifySignature sample_config (signed_request sample_secret sample_envelope) = next.
Proof.
  split; [discriminate|].
  apply (verifySignature_accepts_own_signature
           (Buffer.from_utf8 (json_text sample_envelope)) sample_secret);
    [discriminate | reflexivity | reflexivity | reflexivity].
Defined.

Lemma post_webhook_rejected (cfg : config) (req : request) (r : response) :
  verifySignature cfg req = respond r ->
  result (post_webhook cfg req) = Normal r /\ trace (post_webhook cfg req) = [].
Proof. unfold post_webhook. intros ->. split; reflexivity. Qed.

(** [C3], counterexample: a POST without the signature header, sent to a
    process without the shared secret, is answered 401, not 500. *)
Lemma missing_secret_behind_missing_header :
  result (post_webhook unconfigured (mkRequest None (Some []) (Some entryless_envelope)))
  = Normal (sendStatus 401)
  /\ ~ missing_secret_always_500.
Proof.
  split; [reflexivity|].
  intros C.
  specialize (C unconfigured (mkRequest None (Some []) (Some entryless_envelope)) eq_refl).
  discriminate C.
Qed.

(** [C3], amended: a POST whose signature header is missing or lacks the
    sha256= prefix is answered 401; a POST with a prefixed header is
    answered 500 when the shared secret is missing; and when the secret and
    the raw body are there, it is answered 401 as soon as the bytes decoded
    from the received hex differ, in length or in content, from the computed
    digest.  In each case the route emits nothing: no call of the sender and
    no axios.post. *)
Theorem signature_failures_reject (cfg : config) (req : request) :
  (X_Hub_Signature_256 req = None
   \/ (exists h, X_Hub_Signature_256 req = Some h
                 /\ String.prefix expectedPrefix h = false) ->
   result (post_webhook cfg req) = Normal (sendStatus 401)
   /\ trace (post_webhook cfg req) = [])
  /\ (forall h,
        X_Hub_Signature_256 req = Some h ->
        String.prefix expectedPrefix h = true ->
        env_truthy (APP_SECRET cfg) = false ->
        result (post_webhook cfg req) = Normal (sendStatus 500)
        /\ trace (post_webhook cfg req) = [])
  /\ (forall h raw secret,
        X_Hub_Signature_256 req = Some h ->
        String.prefix expectedPrefix h = true ->
        rawBody req = Some raw ->
        APP_SECRET cfg = Some secret ->
        secret <> EmptyString ->
        Buffer.from_hex (slice 7 h) <> HMAC.hmac_sha256 secret raw ->
        result (post_webhook cfg req) = Normal (sendStatus 401)
        /\ trace (post_webhook cfg req) = []).
Proof.
  split; [|split].
  - intros H. apply post_webhook_rejected, verifySignature_unprefixed, H.
  - intros h H P S. apply post_webhook_rejected.
    exact (verifySignature_unconfigured cfg req h H P S).
  - intros h raw secret H P R S NE D. apply post_webhook_rejected.
    rewrite (verifySignature_prefixed cfg req h H P), R, S.
    rewrite (env_truthy_some secret NE). cbn [negb env_text].
    rewrite signature_mismatch_diff; [reflexivity|].
    unfold HMAC.hmac_hex. rewrite from_hex_to_hex. exact D.
Qed.

Lemma signature_failures_reject_witness :
  (result (post_webhook sample_config (mkRequest None (Some []) (Some sample_envelope)))
   = Normal (sendStatus 401)
   /\ trace (post_webhook sample_config (mkRequest None (Some []) (Some sample_envelope)))
      = [])
  /\ (result (post_webhook unconfigured
                (mkRequest (Some "sha256=00") (Some []) (Some sample_envelope)))
      = Normal (sendStatus 500)
      /\ trace (post_webhook unconfigured
                  (mkRequest (Some "sha256=00") (Some []) (Some sample_envelope)))
         = [])
  /\ (result (post_webhook sample_config
                (mkRequest (Some "sha256=00") (Some []) (Some sample_envelope)))
      = Normal (sendStatus 401)
      /\ trace (post_webhook sample_config
                  (mkRequest (Some "sha256=00") (Some []) (Some sample_envelope)))
         = []).
Proof.
  split; [|split].
  - apply (proj1 (signature_failures_reject sample_config
                    (mkRequest None (Some []) (Some sample_envelope)))).
    left. reflexivity.
  - apply (proj1 (proj2 (signature_failures_reject unconfigured
                           (mkRequest (Some "sha256=00") (Some []) (Some sample_envelope))))
             "sha256=00"); reflexivity.
  - apply (proj2 (proj2 (signature_failures_reject sample_config
                           (mkRequest (Some "sha256=00") (Some []) (Some sample_envelope))))
             "sha256=00" [] sample_secret);
      try reflexivity; vm_compute; discriminate.
Defined.

(** [C10]: the header check comes first.  A POST whose signature header is
    absent or lacks the sha256= prefix is answered 401 whatever the
    configuration, also without the shared secret; and the middleware
    answers 500 only to a request whose header carries the prefix. *)
Theorem header_check_precedes_secret_check (cfg : config) (req : request) :
  (X_Hub_Signature_256 req = None
   \/ (exists h, X_Hub_Signature_256 req = Some h
                 /\ String.prefix expectedPrefix h = false) ->
   verifySignature cfg req = respond (sendStatus 401)
   /\ result (post_webhook cfg req) = Normal (sendStatus 401))
  /\ (verifySignature cfg req = respond (sendStatus 500) ->
      exists h, X_Hub_Signature_256 req = Some h
                /\ String.prefix expectedPrefix h = true).
Proof.
  split.
  - intros H. pose proof (verifySignature_unprefixed cfg req H) as V.
    split; [exact V | apply post_webhook_rejected, V].
  - intros V. destruct (X_Hub_Signature_256 req) as [h|] eqn:H.
    + destruct (String.prefix expectedPrefix h) eqn:P.
      * exists h. split; [reflexivity | exact P].
      * rewrite (verifySignature_unprefixed cfg req) in V; [discriminate|].
        right. exists h. split; assumption.
    + rewrite (verifySignature_unprefixed cfg req) in V; [discriminate|].
      left. exact H.
Qed.

Lemma header_check_precedes_secret_check_witness :
  APP_SECRET unconfigured = None
  /\ (verifySignature unconfigured (mkRequest (Some "sha1=00") None None)
   = respond (sendStatus 401)
   /\ result (post_webhook unconfigured (mkRequest (Some "sha1=00") None None))
      = Normal (sendStatus 401))
  /\ (exists h, X_Hub_Signature_256 (mkRequest (Some "sha256=00") None None) = Some h
                /\ String.prefix expectedPrefix h = true).
Proof.
  split; [reflexivity|]. split.
  - apply (proj1 (header_check_precedes_secret_check unconfigured
                    (mkRequest (Some "sha1=00") None None))).
    right. exists "sha1=00". split; reflexivity.
  - apply (proj2 (header_check_precedes_secret_check unconfigured
                    (mkRequest (Some "sha256=00") None None))).
    reflexivity.
Defined.

(** ** The verification handshake *)

Lemma strict_eq_str_true (v : jsval) (lit : string) :
  strict_eq_str v lit = true <-> v = Some (JStr lit).
Proof.
  destruct v as [[| | |s| |]|]; cbn; try (split; [discriminate | congruence]).
  rewrite String.eqb_eq. split; congruence.
Qed.

(** On a string token and a configured token, [===] is equality of the two
    strings. *)
Lemma strict_eq_env_strings (a b : string) :
  strict_eq_env (Some (JStr a)) (Some b) = true <-> a = b.
Proof. cbn. apply String.eqb_eq. Qed.

Lemma strict_eq_env_same (token : jsval) (configured : option string) :
  strict_eq_env token configured = true <-> same_token token configured.
Proof.
  unfold same_token. split.
  - destruct token as [[| | |t| |]|], configured as [c|]; cbn; try discriminate.
    + intros E. apply String.eqb_eq in E. subst c. left. exists t. split; reflexivity.
    + intros _. right. split; reflexivity.
  - intros [(t & -> & ->) | (-> & ->)]; cbn; [apply String.eqb_refl | reflexivity].
Qed.

(** [C7], counterexample: with no verify-token configured, a GET with
    hub.mode=subscribe and no hub.verify_token matches no string and is still
    answered 200 with the challenge; and the 403 of a refused handshake goes
    out through sendStatus, with the body Forbidden. *)
Lemma handshake_passes_without_any_token :
  get_webhook unconfigured (mkQuery (Some (JStr "subscribe")) None (Some (JStr "abc123")))
  = status_send 200 (Some (JStr "abc123"))
  /\ send_argument
       (get_webhook sample_config
          (mkQuery (Some (JStr "subscribe")) (Some (JStr "guess")) (Some (JStr "abc123"))))
     = Some (Some (JStr "Forbidden"))
  /\ ~ handshake_by_string_match.
Proof.
  split; [reflexivity|]. split; [reflexivity|].
  intros C.
  destruct (C unconfigured
              (mkQuery (Some (JStr "subscribe")) None (Some (JStr "abc123"))))
    as [_ Refused].
  destruct Refused as [St _].
  - intros [_ (t & Ht & _)]. discriminate Ht.
  - discriminate St.
Qed.

(** [C7], amended: a GET whose hub.mode is the string subscribe and whose
    hub.verify_token is strictly equal to the configured verify-token (the
    same string on both sides, or undefined on both sides) is answered with
    status 200 and the hub.challenge value, handed to send as it came; every
    other GET is answered 403 through sendStatus, whose body is the status
    text Forbidden. *)
Theorem handshake_answers (cfg : config) (q : query) :
  (hub_mode q = Some (JStr "subscribe")
   /\ same_token (hub_verify_token q) (VERIFY_TOKEN cfg) ->
   get_webhook cfg q = status_send 200 (hub_challenge q)
   /\ status_of (get_webhook cfg q) = 200
   /\ send_argument (get_webhook cfg q) = Some (hub_challenge q))
  /\ (~ (hub_mode q = Some (JStr "subscribe")
         /\ same_token (hub_verify_token q) (VERIFY_TOKEN cfg)) ->
      get_webhook cfg q = sendStatus 403
      /\ status_of (get_webhook cfg q) = 403
      /\ send_argument (get_webhook cfg q) = Some (Some (JStr "Forbidden"))).
Proof.
  unfold get_webhook. cbv zeta. split.
  - intros [Hm Ht]. apply strict_eq_env_same in Ht.
    apply strict_eq_str_true in Hm. rewrite Hm, Ht.
    cbn [andb]. repeat split.
  - intros N.
    destruct (strict_eq_str (hub_mode q) "subscribe") eqn:Em;
      [|cbn [andb]; repeat split].
    destruct (strict_eq_env (hub_verify_token q) (VERIFY_TOKEN cfg)) eqn:Et;
      [|cbn [andb]; repeat split].
    exfalso. apply N. split.
    + apply strict_eq_str_true, Em.
    + apply strict_eq_env_same, Et.
Qed.

Lemma handshake_answers_witness :
  (get_webhook sample_config
     (mkQuery (Some (JStr "subscribe")) (Some (JStr "verify-me")) (Some (JStr "abc123")))
   = status_send 200 (Some (JStr "abc123"))
   /\ status_of (get_webhook sample_config
                   (mkQuery (Some (JStr "subscribe")) (Some (JStr "verify-me"))
                            (Some (JStr "abc123")))) = 200
   /\ send_argument (get_webhook sample_config
                       (mkQuery (Some (JStr "subscribe")) (Some (JStr "verify-me"))
                                (Some (JStr "abc123"))))
      = Some (Some (JStr "abc123")))
  /\ (get_webhook sample_config
        (mkQuery (Some (JStr "subscribe")) (Some (JStr "guess")) (Some (JStr "abc123")))
      = sendStatus 403
      /\ status_of (get_webhook sample_config
                      (mkQuery (Some (JStr "subscribe")) (Some (JStr "guess"))
                               (Some (JStr "abc123")))) = 403
      /\ send_argument (get_webhook sample_config
                          (mkQuery (Some (JStr "subscribe")) (Some (JStr "guess"))
                                   (Some (JStr "abc123"))))
         = Some (Some (JStr "Forbidden"))).
Proof.
  split.
  - apply (proj1 (handshake_answers sample_config
                    (mkQuery (Some (JStr "subscribe")) (Some (JStr "verify-me"))
                             (Some (JStr "abc123"))))).
    split; [reflexivity|]. left. exists "verify-me". split; reflexivity.
  - apply (proj2 (handshake_answers sample_config
                    (mkQuery (Some (JStr "subscribe")) (Some (JStr "guess"))
                             (Some (JStr "abc123"))))).
    intros [_ [(t & Ht & Hc) | (Ht & _)]]; [|discriminate Ht].
    cbn in Ht, Hc. injection Ht as <-. discriminate Hc.
Defined.

(** [C9]: when no verify-token is configured, a GET with
    hub.mode=subscribe and no hub.verify_token passes the strict equality
    (undefined === undefined) and is answered 200 with the challenge. *)
Theorem handshake_without_configured_token (cfg : config) (q : query) :
  VERIFY_TOKEN cfg = None ->
  hub_mode q = Some (JStr "subscribe") ->
  hub_verify_token q = None ->
  strict_eq_env (hub_verify_token q) (VERIFY_TOKEN cfg) = true
  /\ get_webhook cfg q = status_send 200 (hub_challenge q).
Proof.
  intros Hv Hm Ht. unfold get_webhook. cbv zeta. rewrite Hv, Hm, Ht. split; reflexivity.
Qed.

Lemma handshake_without_configured_token_witness :
  strict_eq_env None (VERIFY_TOKEN unconfigured) = true
  /\ get_webhook unconfigured (mkQuery (Some (JStr "subscribe")) None (Some (JStr "abc123")))
     = status_send 200 (Some (JStr "abc123")).
Proof.
  apply (handshake_without_configured_token unconfigured
           (mkQuery (Some (JStr "subscribe")) None (Some (JStr "abc123"))));
    reflexivity.
Defined.

(** ** Traces *)

Lemma calls_app (a b : list event) : calls (a ++ b) = calls a ++ calls b.
Proof.
  induction a as [|[recipient messageText | r] a IH]; cbn; [reflexivity | | exact IH].
  rewrite IH. reflexivity.
Qed.

Lemma posts_app (a b : list event) : posts (a ++ b) = posts a ++ posts b.
Proof.
  induction a as [|[recipient messageText | r] a IH]; cbn; [reflexivity | exact IH |].
  rewrite IH. reflexivity.
Qed.

Lemma calls_flat_map {A : Type} (f : A -> list event) (l : list A) :
  calls (flat_map f l) = flat_map (fun x => calls (f x)) l.
Proof.
  induction l as [|x l IH]; cbn; [reflexivity|]. rewrite calls_app, IH. reflexivity.
Qed.

Lemma posts_flat_map {A : Type} (f : A -> list event) (l : list A) :
  posts (flat_map f l) = flat_map (fun x => posts (f x)) l.
Proof.
  induction l as [|x l IH]; cbn; [reflexivity|]. rewrite posts_app, IH. reflexivity.
Qed.

Lemma flat_map_singleton {A B : Type} (f : A -> B) (l : list A) :
  flat_map (fun x => [f x]) l = map f l.
Proof. induction l as [|x l IH]; cbn; [reflexivity|]. rewrite IH. reflexivity. Qed.

(** A callback that completes normally on every item makes the whole
    forEach complete normally, its events in the order of the items. *)
Lemma iterate_normal (cb : json -> M unit) (items : list json) :
  (forall x, In x items -> result (cb x) = Normal tt) ->
  result (iterate cb items) = Normal tt
  /\ trace (iterate cb items) = flat_map (fun x => trace (cb x)) items.
Proof.
  induction items as [|x rest IH]; intros H; [split; reflexivity|].
  destruct IH as [R T]; [intros y Hy; apply H; right; exact Hy|].
  cbn [iterate flat_map]. unfold bind. rewrite (H x (or_introl eq_refl)).
  cbn [result trace]. rewrite R, T. split; reflexivity.
Qed.

(** The first item on which the callback throws ends the forEach with that
    exception. *)
Lemma iterate_throws_at_head (cb : json -> M unit) (x : json) (rest : list json)
  (e : js_error) :
  result (cb x) = Throw e -> result (iterate cb (x :: rest)) = Throw e.
Proof. intros H. cbn [iterate]. unfold bind. rewrite H. reflexivity. Qed.

(** ** The outbound sender *)

Lemma sendTextMessage_starts (cfg : config) (recipient : jsval) (messageText : string) :
  (exists p, result (sendTextMessage cfg recipient messageText) = Normal p)
  /\ calls (trace (sendTextMessage cfg recipient messageText)) = [(recipient, messageText)]
  /\ (env_truthy (WHATSAPP_TOKEN cfg) && env_truthy (PHONE_NUMBER_ID cfg) = true ->
      map (fun r => to (data r)) (posts (trace (sendTextMessage cfg recipient messageText)))
      = [recipient])
  /\ (env_truthy (WHATSAPP_TOKEN cfg) && env_truthy (PHONE_NUMBER_ID cfg) = false ->
      result (sendTextMessage cfg recipient messageText) = Normal Fulfilled
      /\ posts (trace (sendTextMessage cfg recipient messageText)) = [])
  /\ (List.length (posts (trace (sendTextMessage cfg recipient messageText))) <= 1)%nat.
Proof.
  unfold sendTextMessage.
  destruct (env_truthy (WHATSAPP_TOKEN cfg)), (env_truthy (PHONE_NUMBER_ID cfg));
    cbn; repeat split; try (eexists; reflexivity); try discriminate; auto.
Qed.

Lemma sendTextMessage_resumed_settles (recipient : jsval) (reply : axios_reply) :
  result (sendTextMessage_resumed recipient reply) = Normal tt
  /\ trace (sendTextMessage_resumed recipient reply) = [].
Proof.
  unfold sendTextMessage_resumed, try_catch, bind, lift, ret, throw.
  destruct reply as [|e]; cbn [result trace]; [|split; reflexivity].
  destruct (ToString recipient); cbn [result trace]; split; reflexivity.
Qed.

(** ** The event handler on well-formed envelopes *)

Lemma bind_ret_l {A B : Type} (a : A) (k : A -> M B) : bind (ret a) k = k a.
Proof. unfold bind, ret. cbn. destruct (k a); reflexivity. Qed.

Lemma bind_lift_normal {A B : Type} (a : A) (k : A -> M B) :
  bind (lift (Normal a)) k = k a.
Proof. exact (bind_ret_l a k). Qed.

Lemma bind_throw {A B : Type} (e : js_error) (k : A -> M B) :
  bind (throw e) k = throw e.
Proof. reflexivity. Qed.

Lemma bind_then_unit {A : Type} (m : M A) :
  (exists a, result m = Normal a) ->
  result (bind m (fun _ => ret tt)) = Normal tt
  /\ trace (bind m (fun _ => ret tt)) = trace m.
Proof.
  intros [a R]. unfold bind. rewrite R. cbn. rewrite app_nil_r. split; reflexivity.
Qed.

Ltac step_ret := rewrite ?bind_ret_l, ?bind_lift_normal.

Lemma on_message_wf (cfg : config) (m : json) :
  wf_message m = true ->
  result (on_message cfg m) = Normal tt
  /\ trace (on_message cfg m) = send_events cfg (spec_message m).
Proof.
  destruct m as [| | | | |f]; try discriminate.
  unfold wf_message, on_message, spec_message, send_events, quoted_text, field_of.
  cbn [get_prop im_from im_text]. step_ret.
  destruct (assoc "from" f) as [[| | |sender| |]|]; try discriminate.
  cbn [is_string andb].
  destruct (assoc "text" f) as [[| | | | |t]|]; try discriminate;
    cbn [get_prop_opt get_prop]; step_ret.
  - destruct (assoc "body" t) as [[| | |b| |]|]; try discriminate; intros _;
      unfold or_else; cbn [truthy].
    + destruct (String.eqb b EmptyString); cbn [negb ToString ToString_json];
        step_ret; apply bind_then_unit, sendTextMessage_starts.
    + cbn [ToString ToString_json]. step_ret.
      apply bind_then_unit, sendTextMessage_starts.
  - intros _. unfold or_else. cbn [truthy ToString ToString_json]. step_ret.
    apply bind_then_unit, sendTextMessage_starts.
Qed.

Section Traversal.

Variable cfg : config.

(** A forEach whose callback, on every item, completes normally and emits
    the sends owed to the messages [spec] finds in the item, emits the
    sends owed to the messages found in all the items, in order. *)
Lemma iterate_sends (cb : json -> M unit) (spec : json -> list InboundMessage)
  (items : list json) :
  (forall x, In x items ->
     result (cb x) = Normal tt
     /\ trace (cb x) = flat_map (send_events cfg) (spec x)) ->
  result (iterate cb items) = Normal tt
  /\ trace (iterate cb items) = flat_map (send_events cfg) (flat_map spec items).
Proof.
  intros H.
  destruct (iterate_normal cb items) as [R T]; [intros x Hx; apply H, Hx|].
  split; [exact R|]. rewrite T. clear R T.
  induction items as [|x rest IH]; [reflexivity|].
  cbn [flat_map]. rewrite flat_map_app.
  rewrite (proj2 (H x (or_introl eq_refl))).
  rewrite IH; [reflexivity|]. intros y Hy. apply H. right. exact Hy.
Qed.

Lemma on_message_sends (m : json) :
  wf_message m = true ->
  result (on_message cfg m) = Normal tt
  /\ trace (on_message cfg m) = flat_map (send_events cfg) [spec_message m].
Proof.
  intros W. destruct (on_message_wf cfg m W) as [R T].
  split; [exact R|]. cbn [flat_map]. rewrite app_nil_r. exact T.
Qed.

Lemma on_change_wf (c : json) :
  wf_change c = true ->
  result (on_change cfg c) = Normal tt
  /\ trace (on_change cfg c) = flat_map (send_events cfg) (spec_change_messages c).
Proof.
  destruct c as [| | | | |f]; try discriminate.
  unfold wf_change, on_change, spec_change_messages, field_of.
  cbn [get_prop]. step_ret.
  destruct (assoc "field" f) as [[| | |fld| |]|]; try discriminate.
  destruct (assoc "value" f) as [[| | | | |v]|]; try discriminate.
  cbn [strict_eq_str get_prop].
  destruct (String.eqb fld "messages"); [|intros _; split; reflexivity].
  step_ret.
  destruct (assoc "messages" v) as [[| | | |ms|]|]; try discriminate;
    cbn [truthy items_of]; [|intros _; split; reflexivity].
  intros W. step_ret. cbn [forEach].
  rewrite <- flat_map_singleton.
  apply iterate_sends. intros m Hm. apply on_message_sends.
  rewrite forallb_forall in W. apply W, Hm.
Qed.

Lemma on_entry_wf (e : json) :
  wf_entry e = true ->
  result (on_entry cfg e) = Normal tt
  /\ trace (on_entry cfg e)
     = flat_map (send_events cfg)
         (flat_map spec_change_messages (items_of (field_of "changes" (Some e)))).
Proof.
  destruct e as [| | | | |f]; try discriminate.
  unfold wf_entry, on_entry, field_of. cbn [get_prop]. step_ret.
  destruct (assoc "changes" f) as [[| | | |cs|]|]; try discriminate.
  intros W. cbn [forEach items_of].
  apply iterate_sends. intros c Hc. apply on_change_wf.
  rewrite forallb_forall in W. apply W, Hc.
Qed.

(** On a well-formed envelope the handler acknowledges with 200 after
    starting, in order, the sends owed to the messages the specification's
    extractor finds. *)
Lemma post_webhook_handler_wf (req : request) (b : json) :
  body req = Some b ->
  wf_envelope b = true ->
  result (post_webhook_handler cfg req) = Normal (sendStatus 200)
  /\ trace (post_webhook_handler cfg req)
     = flat_map (send_events cfg) (spec_extract b).
Proof.
  intros HB. destruct b as [| | | | |f]; try discriminate.
  unfold wf_envelope, post_webhook_handler, spec_extract, field_of.
  rewrite HB. cbn [get_prop]. step_ret.
  destruct (assoc "object" f) as [[| | |o| |]|]; try discriminate.
  cbn [is_string andb strict_eq_str].
  destruct (assoc "entry" f) as [[| | | |es|]|]; try discriminate.
  intros W. cbn [items_of].
  destruct (String.eqb o business_account).
  - step_ret. cbn [forEach].
    destruct (iterate_sends (on_entry cfg)
                (fun e => flat_map spec_change_messages
                            (items_of (field_of "changes" (Some e)))) es) as [R T].
    { intros e He. apply on_entry_wf. rewrite forallb_forall in W. apply W, He. }
    unfold bind. rewrite R. cbn [result trace]. rewrite app_nil_r.
    split; [reflexivity | exact T].
  - step_ret. split; reflexivity.
Qed.

End Traversal.

Lemma calls_send_events (cfg : config) (ms : list InboundMessage) :
  calls (flat_map (send_events cfg) ms) = map reply_to ms.
Proof.
  rewrite calls_flat_map. rewrite <- flat_map_singleton.
  apply flat_map_ext. intros m. unfold send_events, reply_to.
  apply sendTextMessage_starts.
Qed.

Lemma posts_send_events (cfg : config) (ms : list InboundMessage) :
  env_truthy (WHATSAPP_TOKEN cfg) && env_truthy (PHONE_NUMBER_ID cfg) = true ->
  map (fun r => to (data r)) (posts (flat_map (send_events cfg) ms)) = map im_from ms.
Proof.
  intros C. rewrite posts_flat_map.
  induction ms as [|m ms IH]; [reflexivity|].
  cbn [flat_map map]. rewrite map_app, IH. unfold send_events at 1.
  destruct (sendTextMessage_starts cfg (im_from m) (replyMessage (quoted_text m)))
    as (_ & _ & P & _).
  rewrite (P C). reflexivity.
Qed.

(** [C5], counterexample: the signed sample delivery is acknowledged
    through sendStatus(200), which hands the status text OK to send: the body
    of the acknowledgment is not empty. *)
Lemma acknowledgment_has_a_body :
  answered (serve sample_config (fun _ => Reply_2xx)
              (signed_request sample_secret sample_envelope))
  = Normal (sendStatus 200)
  /\ send_argument (sendStatus 200) = Some (Some (JStr "OK"))
  /\ ~ acknowledged_with_empty_body.
Proof.
  assert (A : answered (serve sample_config (fun _ => Reply_2xx)
                          (signed_request sample_secret sample_envelope))
              = Normal (sendStatus 200)).
  { unfold serve, post_webhook. rewrite signed_request_passes. reflexivity. }
  split; [exact A|]. split; [reflexivity|].
  intros C.
  destruct (C sample_config (fun _ => Reply_2xx)
              (signed_request sample_secret sample_envelope) sample_envelope
              (signed_request_passes sample_envelope) eq_refl eq_refl)
    as (r & Hr & _ & E).
  rewrite A in Hr. injection Hr as <-.
  destruct E as [E | E]; discriminate E.
Qed.

(** [C5], amended: a POST that passes the signature check and carries a
    well-formed envelope is answered 200 through sendStatus, whose body is the
    status text OK, whatever the number of messages (none included) and
    whatever the network replies to the sends; the sender is called exactly
    once per extracted message, in order, with the recipient equal to the
    message's from; and, with the credentials configured, exactly one
    axios.post per message is started, its to field equal to the message's
    from. *)
Theorem acknowledged_with_one_send_per_message
  (cfg : config) (net : axios_request -> axios_reply) (req : request) (b : json) :
  verifySignature cfg req = next ->
  body req = Some b ->
  wf_envelope b = true ->
  answered (serve cfg net req) = Normal (sendStatus 200)
  /\ (exists r, answered (serve cfg net req) = Normal r
                /\ status_of r = 200
                /\ send_argument r = Some (Some (JStr "OK")))
  /\ calls (started (serve cfg net req)) = map reply_to (spec_extract b)
  /\ map fst (calls (started (serve cfg net req))) = map im_from (spec_extract b)
  /\ List.length (calls (started (serve cfg net req))) = List.length (spec_extract b)
  /\ (env_truthy (WHATSAPP_TOKEN cfg) && env_truthy (PHONE_NUMBER_ID cfg) = true ->
      map (fun r => to (data r)) (posts (started (serve cfg net req)))
      = map im_from (spec_extract b)).
Proof.
  intros V HB W. unfold serve, post_webhook. rewrite V. cbn [answered started].
  destruct (post_webhook_handler_wf cfg req b HB W) as [R T].
  rewrite R, T, calls_send_events.
  split; [reflexivity|].
  split; [exists (sendStatus 200); repeat split|].
  split; [reflexivity|]. split; [|split].
  - rewrite map_map. reflexivity.
  - apply length_map.
  - apply posts_send_events.
Qed.

Lemma acknowledged_with_one_send_per_message_witness :
  answered (serve sample_config (fun _ => Reply_rejected (AxiosError None))
              (signed_request sample_secret sample_envelope))
  = Normal (sendStatus 200)
  /\ (exists r, answered (serve sample_config (fun _ => Reply_rejected (AxiosError None))
                           (signed_request sample_secret sample_envelope)) = Normal r
                /\ status_of r = 200
                /\ send_argument r = Some (Some (JStr "OK")))
  /\ map fst (calls (started (serve sample_config (fun _ => Reply_rejected (AxiosError None))
                                (signed_request sample_secret sample_envelope))))
     = [Some (JStr "1555"); Some (JStr "1777")]
  /\ map (fun r => to (data r))
         (posts (started (serve sample_config (fun _ => Reply_rejected (AxiosError None))
                            (signed_request sample_secret sample_envelope))))
     = [Some (JStr "1555"); Some (JStr "1777")].
Proof.
  destruct (acknowledged_with_one_send_per_message sample_config
              (fun _ => Reply_rejected (AxiosError None))
              (signed_request sample_secret sample_envelope)
              sample_envelope)
    as (A & Bd & _ & F & _ & P).
  - apply signed_request_passes.
  - reflexivity.
  - reflexivity.
  - split; [exact A|]. split; [exact Bd|]. split; [exact F|]. apply P. reflexivity.
Defined.

(** [C6]: a POST that passes the signature check and whose body has an
    object other than whatsapp_business_account (or none) is acknowledged
    with 200 and nothing is started: the sender is not called, no axios.post
    is made, and the extractor of the specification finds no message. *)
Theorem other_objects_are_ignored
  (cfg : config) (net : axios_request -> axios_reply) (req : request) (object : jsval) :
  verifySignature cfg req = next ->
  get_prop (body req) "object" = ret object ->
  strict_eq_str object business_account = false ->
  answered (serve cfg net req) = Normal (sendStatus 200)
  /\ started (serve cfg net req) = []
  /\ settled (serve cfg net req) = []
  /\ (forall b, body req = Some b -> spec_extract b = []).
Proof.
  intros V G O.
  assert (H : post_webhook cfg req = ret (sendStatus 200)).
  { unfold post_webhook, post_webhook_handler. rewrite V, G. step_ret.
    rewrite O. step_ret. reflexivity. }
  unfold serve. rewrite H. cbn.
  repeat split.
  intros b HB. rewrite HB in G. unfold spec_extract, field_of.
  destruct b as [| | | | |f]; try reflexivity.
  cbn in G. injection G as G. rewrite G, O. reflexivity.
Qed.

Lemma other_objects_are_ignored_witness :
  answered (serve sample_config (fun _ => Reply_2xx)
              (signed_request sample_secret other_envelope))
  = Normal (sendStatus 200)
  /\ started (serve sample_config (fun _ => Reply_2xx)
                (signed_request sample_secret other_envelope)) = []
  /\ settled (serve sample_config (fun _ => Reply_2xx)
                (signed_request sample_secret other_envelope)) = []
  /\ (forall b, body (signed_request sample_secret other_envelope) = Some b ->
                spec_extract b = []).
Proof.
  apply (other_objects_are_ignored sample_config (fun _ => Reply_2xx)
           (signed_request sample_secret other_envelope) (Some (JStr "page"))).
  - apply signed_request_passes.
  - reflexivity.
  - reflexivity.
Defined.

(** ** Envelopes with missing fields *)

Lemma entryless_throws (cfg : config) (req : request) (f : list (string * json)) :
  verifySignature cfg req = next ->
  body req = Some (JObj f) ->
  assoc "object" f = Some (JStr business_account) ->
  assoc "entry" f = None ->
  post_webhook cfg req = throw TypeError.
Proof.
  intros V HB HO HE. unfold post_webhook, post_webhook_handler.
  rewrite V, HB. cbn [get_prop]. step_ret. rewrite HO, HE.
  reflexivity.
Qed.

(** [C1], at the failing input: the signed POST whose body is the business
    account envelope without entry passes the signature check, and the
    handler then throws a TypeError at body.entry.forEach instead of
    answering 200; the same happens for an entry without changes and for a
    messages change without value. *)
Theorem missing_fields_throw :
  verifySignature sample_config (signed_request sample_secret entryless_envelope) = next
  /\ post_webhook sample_config (signed_request sample_secret entryless_envelope)
     = throw TypeError
  /\ result (post_webhook sample_config
               (signed_request sample_secret
                  (JObj [("object", JStr business_account); ("entry", JArr [JObj []])])))
     = Throw TypeError
  /\ result (post_webhook sample_config
               (signed_request sample_secret
                  (JObj [("object", JStr business_account);
                         ("entry",
                          JArr [JObj [("changes",
                                       JArr [JObj [("field", JStr "messages")]])]])])))
     = Throw TypeError.
Proof.
  split; [apply signed_request_passes|]. split; [|split].
  - apply (entryless_throws _ _ [("object", JStr business_account)]);
      [apply signed_request_passes | reflexivity | reflexivity | reflexivity].
  - unfold post_webhook. rewrite signed_request_passes. reflexivity.
  - unfold post_webhook. rewrite signed_request_passes. reflexivity.
Qed.

(** ** Failures of the sender *)

Lemma absent_is_falsy (cfg : config) :
  WHATSAPP_TOKEN cfg = None \/ PHONE_NUMBER_ID cfg = None ->
  env_truthy (WHATSAPP_TOKEN cfg) && env_truthy (PHONE_NUMBER_ID cfg) = false.
Proof.
  intros [-> | ->]; [reflexivity|]. apply andb_false_r.
Qed.

(** [C8]: without the bearer credential or without the phone number id,
    [sendTextMessage] returns a fulfilled promise and starts no axios.post.
    When the axios.post is made it is made once, and whatever the reply (a
    2xx, a rejection with a network error or with a response that is not
    2xx) the resumed call completes normally and emits nothing more: the
    promise is fulfilled, never rejected, and nothing is sent again.  The
    answer of the route is fixed before any reply comes in. *)
Theorem sender_failures_are_contained
  (cfg : config) (recipient : jsval) (messageText : string) :
  (WHATSAPP_TOKEN cfg = None \/ PHONE_NUMBER_ID cfg = None ->
   result (sendTextMessage cfg recipient messageText) = Normal Fulfilled
   /\ posts (trace (sendTextMessage cfg recipient messageText)) = [])
  /\ (exists p, result (sendTextMessage cfg recipient messageText) = Normal p)
  /\ (List.length (posts (trace (sendTextMessage cfg recipient messageText))) <= 1)%nat
  /\ (forall reply,
        settle (sendTextMessage_resumed recipient reply) = Fulfilled
        /\ trace (sendTextMessage_resumed recipient reply) = [])
  /\ (forall net req,
        answered (serve cfg net req) = result (post_webhook cfg req)
        /\ started (serve cfg net req) = trace (post_webhook cfg req)
        /\ Forall (fun p => p = Fulfilled) (settled (serve cfg net req))
        /\ afterwards (serve cfg net req) = []).
Proof.
  destruct (sendTextMessage_starts cfg recipient messageText) as (E & _ & _ & O & L).
  split; [|split; [exact E | split; [exact L | split]]].
  - intros A. apply O, absent_is_falsy, A.
  - intros reply. destruct (sendTextMessage_resumed_settles recipient reply) as [R T].
    unfold settle. rewrite R. split; [reflexivity | exact T].
  - intros net req. unfold serve. cbn [answered started settled afterwards].
    split; [reflexivity|]. split; [reflexivity|]. split.
    + rewrite map_map. apply Forall_forall. intros p Hp.
      apply in_map_iff in Hp. destruct Hp as (r & <- & _).
      unfold settle. rewrite (proj1 (sendTextMessage_resumed_settles _ _)). reflexivity.
    + induction (posts (trace (post_webhook cfg req))) as [|r l IH]; [reflexivity|].
      cbn [map flat_map]. rewrite IH.
      rewrite (proj2 (sendTextMessage_resumed_settles _ _)). reflexivity.
Qed.

Lemma sender_failures_are_contained_witness :
  result (sendTextMessage unconfigured (Some (JStr "1555")) "hello") = Normal Fulfilled
  /\ posts (trace (sendTextMessage unconfigured (Some (JStr "1555")) "hello")) = [].
Proof.
  apply (proj1 (sender_failures_are_contained unconfigured (Some (JStr "1555")) "hello")).
  left. reflexivity.
Defined.

(** ** Received digests that are not clean hex *)

(** Decoding stops at the first pair that is not hex: what follows a
    complete digest is ignored. *)
Lemma from_hex_ignores_tail (b : Buffer.t) (c d : ascii) (tail : string) :
  Buffer.unhex c = None ->
  Buffer.from_hex (String.append (Buffer.to_hex b) (String c (String d tail))) = b.
Proof.
  intros U. induction b as [|x rest IH].
  - cbn [Buffer.to_hex String.append Buffer.from_hex]. rewrite U. reflexivity.
  - cbn [Buffer.to_hex String.append Buffer.from_hex].
    destruct (hex_pair x) as (Hhi & Hlo & Hx).
    cbv zeta in Hhi, Hlo, Hx |- *.
    rewrite Hhi, Hlo, Hx, IH. reflexivity.
Qed.

(** A header made of the right digest followed by characters that are not
    hex digits passes the check: the comparison is on the decoded bytes. *)
Lemma digest_with_tail_passes (B : Buffer.t) (S : string) (cfg : config) (req : request) :
  S <> EmptyString ->
  APP_SECRET cfg = Some S ->
  rawBody req = Some B ->
  X_Hub_Signature_256 req = Some (String.append (sign S B) "zz") ->
  verifySignature cfg req = next.
Proof.
  intros NE HS HB HH.
  rewrite (verifySignature_prefixed cfg req _ HH eq_refl), HB, HS.
  rewrite (env_truthy_some S NE). cbn [negb env_text].
  rewrite signature_mismatch_same; [reflexivity|].
  change (slice 7 (String.append (sign S B) "zz"))
    with (String.append (Buffer.to_hex (HMAC.hmac_sha256 S B)) "zz").
  unfold HMAC.hmac_hex. rewrite from_hex_to_hex.
  apply from_hex_ignores_tail. reflexivity.
Qed.

(** * Further properties of the receiver *)

(** ** What the middleware lets through *)

Lemma timingSafeEqual_true (a b : Buffer.t) :
  timingSafeEqual a b = Normal true -> a = b.
Proof.
  unfold timingSafeEqual.
  destruct (Nat.eqb (List.length a) (List.length b)) eqn:L; [|discriminate].
  intros H. injection H as H. apply Z.eqb_eq in H.
  apply fold_xor_zero in H. destruct H as [_ F].
  apply Nat.eqb_eq in L. apply combine_diag; assumption.
Qed.

Lemma signature_mismatch_false (r c : string) :
  signature_mismatch r c = Normal false -> Buffer.from_hex r = Buffer.from_hex c.
Proof.
  unfold signature_mismatch.
  destruct (Nat.eqb (List.length (Buffer.from_hex r)) (List.length (Buffer.from_hex c)));
    cbn [negb]; [|discriminate].
  destruct (timingSafeEqual (Buffer.from_hex r) (Buffer.from_hex c)) as [[|]|e] eqn:T;
    try discriminate.
  intros _. apply timingSafeEqual_true, T.
Qed.

Lemma signature_mismatch_normal (r c : string) :
  exists b, signature_mismatch r c = Normal b.
Proof.
  unfold signature_mismatch.
  destruct (Nat.eqb (List.length (Buffer.from_hex r)) (List.length (Buffer.from_hex c))) eqn:L;
    cbn [negb]; [|eexists; reflexivity].
  unfold timingSafeEqual. rewrite L. eexists. reflexivity.
Qed.

Lemma env_truthy_inv (e : option string) :
  env_truthy e = true -> exists s, e = Some s /\ s <> EmptyString.
Proof.
  destruct e as [s|]; [|discriminate]. cbn. intros H.
  exists s. split; [reflexivity|]. apply String.eqb_neq, negb_true_iff, H.
Qed.

(** A request is let through only with everything in place and the decoded
    signature equal to the HMAC of the raw body. *)
Lemma next_inv (cfg : config) (req : request) :
  verifySignature cfg req = next ->
  exists h raw secret,
    X_Hub_Signature_256 req = Some h
    /\ String.prefix expectedPrefix h = true
    /\ rawBody req = Some raw
    /\ APP_SECRET cfg = Some secret
    /\ secret <> EmptyString
    /\ Buffer.from_hex (slice 7 h) = HMAC.hmac_sha256 secret raw.
Proof.
  intros V. destruct (X_Hub_Signature_256 req) as [h|] eqn:H.
  2:{ rewrite (verifySignature_unprefixed cfg req) in V; [discriminate | left; exact H]. }
  destruct (String.prefix expectedPrefix h) eqn:P.
  2:{ rewrite (verifySignature_unprefixed cfg req) in V; [discriminate|].
      right. exists h. split; assumption. }
  rewrite (verifySignature_prefixed cfg req h H P) in V.
  destruct (rawBody req) as [raw|]; [|discriminate].
  destruct (env_truthy (APP_SECRET cfg)) eqn:S; cbn [negb] in V; [|discriminate].
  destruct (env_truthy_inv _ S) as (secret & HS & NE).
  rewrite HS in V. cbn [env_text] in V.
  destruct (signature_mismatch (slice 7 h) (HMAC.hmac_hex secret raw)) as [[|]|e] eqn:Mm;
    try discriminate.
  apply signature_mismatch_false in Mm.
  unfold HMAC.hmac_hex in Mm. rewrite from_hex_to_hex in Mm.
  exists h, raw, secret. repeat split; assumption.
Qed.

(** [X1]: the middleware calls next exactly for the requests that carry a
    prefixed signature header and a raw body, under a secret that is not
    empty, and whose decoded signature equals the HMAC-SHA256 of the raw body
    under that secret. *)
Theorem verifySignature_next_iff (cfg : config) (req : request) :
  verifySignature cfg req = next
  <-> exists h raw secret,
        X_Hub_Signature_256 req = Some h
        /\ String.prefix expectedPrefix h = true
        /\ rawBody req = Some raw
        /\ APP_SECRET cfg = Some secret
        /\ secret <> EmptyString
        /\ Buffer.from_hex (slice 7 h) = HMAC.hmac_sha256 secret raw.
Proof.
  split; [apply next_inv|].
  intros (h & raw & secret & H & P & R & S & NE & E).
  rewrite (verifySignature_prefixed cfg req h H P), R, S.
  rewrite (env_truthy_some secret NE). cbn [negb env_text].
  rewrite signature_mismatch_same; [reflexivity|].
  unfold HMAC.hmac_hex. rewrite from_hex_to_hex. exact E.
Qed.

Lemma verifySignature_answers (cfg : config) (req : request) :
  verifySignature cfg req = next
  \/ verifySignature cfg req = respond (sendStatus 401)
  \/ verifySignature cfg req = respond (sendStatus 500).
Proof.
  destruct (X_Hub_Signature_256 req) as [h|] eqn:H.
  2:{ right. left. apply verifySignature_unprefixed. left. exact H. }
  destruct (String.prefix expectedPrefix h) eqn:P.
  2:{ right. left. apply verifySignature_unprefixed. right. exists h. split; assumption. }
  rewrite (verifySignature_prefixed cfg req h H P).
  destruct (rawBody req) as [raw|]; [|right; right; reflexivity].
  destruct (env_truthy (APP_SECRET cfg)); cbn [negb]; [|right; right; reflexivity].
  destruct (signature_mismatch_normal (slice 7 h)
              (HMAC.hmac_hex (env_text (APP_SECRET cfg)) raw)) as [[|] ->].
  - right. left. reflexivity.
  - left. reflexivity.
Qed.

Lemma bind_normal_inv {A B : Type} (m : M A) (k : A -> M B) (b : B) :
  result (bind m k) = Normal b ->
  exists a, result m = Normal a /\ result (k a) = Normal b.
Proof.
  unfold bind. destruct (result m) as [a|e]; cbn [result]; [|discriminate].
  intros H. exists a. split; [reflexivity | exact H].
Qed.

Lemma handler_answer (cfg : config) (req : request) (r : response) :
  result (post_webhook_handler cfg req) = Normal r -> r = sendStatus 200.
Proof.
  unfold post_webhook_handler. intros H.
  apply bind_normal_inv in H. destruct H as (object & _ & H).
  apply bind_normal_inv in H. destruct H as (u & _ & H).
  cbn in H. injection H as <-. reflexivity.
Qed.

(** [X2]: when the POST route answers, the status is 200, 401 or 500, and
    it is 200 only for a request the middleware let through. *)
Theorem post_webhook_statuses (cfg : config) (req : request) (r : response) :
  result (post_webhook cfg req) = Normal r ->
  (r = sendStatus 200 /\ verifySignature cfg req = next)
  \/ (r = sendStatus 401 /\ trace (post_webhook cfg req) = [])
  \/ (r = sendStatus 500 /\ trace (post_webhook cfg req) = []).
Proof.
  unfold post_webhook.
  destruct (verifySignature_answers cfg req) as [V | [V | V]]; rewrite V.
  - intros H. left. split; [exact (handler_answer cfg req r H) | reflexivity].
  - cbn. intros H. injection H as <-. right. left. split; reflexivity.
  - cbn. intros H. injection H as <-. right. right. split; reflexivity.
Qed.

Lemma post_webhook_statuses_witness :
  (sendStatus 200 = sendStatus 200
   /\ verifySignature sample_config (signed_request sample_secret sample_envelope) = next)
  \/ (sendStatus 200 = sendStatus 401
      /\ trace (post_webhook sample_config (signed_request sample_secret sample_envelope)) = [])
  \/ (sendStatus 200 = sendStatus 500
      /\ trace (post_webhook sample_config (signed_request sample_secret sample_envelope)) = []).
Proof.
  apply (post_webhook_statuses sample_config
           (signed_request sample_secret sample_envelope) (sendStatus 200)).
  unfold post_webhook. rewrite signed_request_passes. reflexivity.
Defined.

Lemma verifySignature_next_iff_witness :
  exists h raw secret,
    X_Hub_Signature_256 (signed_request sample_secret sample_envelope) = Some h
    /\ String.prefix expectedPrefix h = true
    /\ rawBody (signed_request sample_secret sample_envelope) = Some raw
    /\ APP_SECRET sample_config = Some secret
    /\ secret <> EmptyString
    /\ Buffer.from_hex (slice 7 h) = HMAC.hmac_sha256 secret raw.
Proof.
  apply (proj1 (verifySignature_next_iff sample_config
                  (signed_request sample_secret sample_envelope))).
  apply (proj2 (verifySignature_next_iff sample_config
                  (signed_request sample_secret sample_envelope))).
  exists (sign sample_secret (Buffer.from_utf8 (json_text sample_envelope))),
         (Buffer.from_utf8 (json_text sample_envelope)), sample_secret.
  do 4 (split; [reflexivity|]). split; [discriminate|].
  change (slice 7 (sign sample_secret (Buffer.from_utf8 (json_text sample_envelope))))
    with (Buffer.to_hex (HMAC.hmac_sha256 sample_secret
                           (Buffer.from_utf8 (json_text sample_envelope)))).
  apply from_hex_to_hex.
Defined.

(** [X3]: the comparison inside the try block never throws, so the catch
    block of the middleware is never entered: the lengths are compared before
    timingSafeEqual is called, and the outcome is a match exactly when the
    two decoded buffers are equal. *)
Theorem comparison_never_throws (receivedSignatureHex computedDigestHex : string) :
  exists mismatch,
    signature_mismatch receivedSignatureHex computedDigestHex = Normal mismatch
    /\ (mismatch = false
        <-> Buffer.from_hex receivedSignatureHex = Buffer.from_hex computedDigestHex).
Proof.
  destruct (signature_mismatch_normal receivedSignatureHex computedDigestHex) as [b Hb].
  exists b. split; [exact Hb|]. split.
  - intros ->. apply signature_mismatch_false, Hb.
  - intros E. rewrite (signature_mismatch_same _ _ E) in Hb. congruence.
Qed.

(** ** The length of a signature *)

Lemma slice_length (n : nat) (s : string) :
  String.length (slice n s) = (String.length s - n)%nat.
Proof.
  revert s. induction n as [|n IH]; intros s.
  - cbn. symmetry. apply Nat.sub_0_r.
  - destruct s as [|c s]; [reflexivity|]. cbn. apply IH.
Qed.

Lemma from_hex_length_bounded (n : nat) :
  forall s, (String.length s <= n)%nat ->
            (2 * List.length (Buffer.from_hex s) <= String.length s)%nat.
Proof.
  induction n as [n IH] using (well_founded_induction Wf_nat.lt_wf).
  intros [|a [|b rest]] L; cbn [Buffer.from_hex String.length List.length].
  - apply Nat.le_refl.
  - apply Nat.le_0_l.
  - destruct (Buffer.unhex a), (Buffer.unhex b); cbn [List.length]; try apply Nat.le_0_l.
    cbn [String.length] in L.
    assert (H : (2 * List.length (Buffer.from_hex rest) <= String.length rest)%nat)
      by (apply (IH (String.length rest)); lia).
    lia.
Qed.

Lemma from_hex_length (s : string) :
  (2 * List.length (Buffer.from_hex s) <= String.length s)%nat.
Proof. apply (from_hex_length_bounded (String.length s)), Nat.le_refl. Qed.

(** An HMAC-SHA256 is 32 bytes long. *)
Lemma hmac_sha256_length (key : string) (d : Buffer.t) :
  List.length (HMAC.hmac_sha256 key d) = 32%nat.
Proof.
  unfold HMAC.hmac_sha256, HMAC.hmacZ, SHA256.hashZ, SHA256.digest_bytes.
  rewrite length_map. cbn [flat_map]. rewrite !length_app.
  unfold SHA256.be_bytes. rewrite !length_map. reflexivity.
Qed.

(** [X4]: a signature header shorter than the prefix plus 64 characters
    never passes the middleware, whatever the configuration and the body:
    fewer than 64 hex digits decode to fewer than the 32 bytes of a digest. *)
Theorem short_signature_never_passes (cfg : config) (req : request) (h : string) :
  X_Hub_Signature_256 req = Some h ->
  (String.length h < 71)%nat ->
  verifySignature cfg req <> next.
Proof.
  intros H L V.
  destruct (next_inv cfg req V) as (h' & raw & secret & H' & _ & _ & _ & _ & E).
  rewrite H in H'. injection H' as <-.
  pose proof (from_hex_length (slice 7 h)) as B.
  rewrite E, hmac_sha256_length, slice_length in B. lia.
Qed.

Lemma short_signature_never_passes_witness :
  verifySignature sample_config
    (mkRequest (Some "sha256=911fd0aa272ad28e30ab013c69b6fd0d")
               (Some (Buffer.from_utf8 (json_text entryless_envelope)))
               (Some entryless_envelope))
  <> next.
Proof.
  apply (short_signature_never_passes sample_config _
           "sha256=911fd0aa272ad28e30ab013c69b6fd0d").
  - reflexivity.
  - cbn. lia.
Defined.

(** ** What the route starts, on any request *)

Lemma sendTextMessage_trace (cfg : config) (recipient : jsval) (messageText : string) :
  trace (sendTextMessage cfg recipient messageText)
  = Call_sendTextMessage recipient messageText
    :: (if credentials cfg
        then [Axios_post (outbound_request cfg recipient messageText)]
        else []).
Proof.
  unfold sendTextMessage, credentials, outbound_request.
  destruct (env_truthy (WHATSAPP_TOKEN cfg)), (env_truthy (PHONE_NUMBER_ID cfg));
    reflexivity.
Qed.

Lemma calls_sent (cfg : config) (l : list (jsval * string)) : calls (sent cfg l) = l.
Proof.
  unfold sent. induction l as [|[recipient messageText] l IH]; [reflexivity|].
  cbn [flat_map fst snd]. rewrite calls_app, IH, sendTextMessage_trace.
  destruct (credentials cfg); reflexivity.
Qed.

Lemma posts_sent (cfg : config) (l : list (jsval * string)) :
  posts (sent cfg l)
  = if credentials cfg
    then map (fun c => outbound_request cfg (fst c) (snd c)) l
    else [].
Proof.
  unfold sent. induction l as [|[recipient messageText] l IH].
  - destruct (credentials cfg); reflexivity.
  - cbn [flat_map fst snd]. rewrite posts_app, IH, sendTextMessage_trace.
    destruct (credentials cfg); reflexivity.
Qed.

Lemma sends_only_silent {A : Type} (cfg : config) (m : M A) :
  trace m = [] -> sends_only cfg m.
Proof. unfold sends_only. intros ->. reflexivity. Qed.

Lemma sends_only_bind {A B : Type} (cfg : config) (m : M A) (k : A -> M B) :
  sends_only cfg m -> (forall a, sends_only cfg (k a)) -> sends_only cfg (bind m k).
Proof.
  unfold sends_only, bind. intros Hm Hk.
  destruct (result m) as [a|e]; cbn [trace]; [|exact Hm].
  rewrite calls_app. unfold sent. rewrite flat_map_app.
  fold (sent cfg (calls (trace m))). fold (sent cfg (calls (trace (k a)))).
  rewrite <- Hm, <- (Hk a). reflexivity.
Qed.

Lemma sends_only_sendTextMessage (cfg : config) (recipient : jsval) (messageText : string) :
  sends_only cfg (sendTextMessage cfg recipient messageText).
Proof.
  unfold sends_only. rewrite sendTextMessage_trace at 2.
  assert (C : calls (Call_sendTextMessage recipient messageText
                       :: (if credentials cfg
                           then [Axios_post (outbound_request cfg recipient messageText)]
                           else []))
              = [(recipient, messageText)])
    by (destruct (credentials cfg); reflexivity).
  rewrite C. unfold sent. cbn [flat_map fst snd]. rewrite app_nil_r. reflexivity.
Qed.

Lemma get_prop_silent (v : jsval) (k : string) : trace (get_prop v k) = [].
Proof. destruct v as [[| | | | |]|]; reflexivity. Qed.

Lemma get_prop_opt_silent (v : jsval) (k : string) : trace (get_prop_opt v k) = [].
Proof. destruct v as [[| | | | |]|]; reflexivity. Qed.

Lemma sends_only_iterate (cfg : config) (cb : json -> M unit) (items : list json) :
  (forall x, sends_only cfg (cb x)) -> sends_only cfg (iterate cb items).
Proof.
  intros H. induction items as [|x rest IH]; [apply sends_only_silent; reflexivity|].
  cbn [iterate]. apply sends_only_bind; [apply H | intros _; exact IH].
Qed.

Lemma sends_only_forEach (cfg : config) (v : jsval) (cb : json -> M unit) :
  (forall x, sends_only cfg (cb x)) -> sends_only cfg (forEach v cb).
Proof.
  intros H. destruct v as [[| | | |items|]|];
    try (apply sends_only_silent; reflexivity).
  apply sends_only_iterate, H.
Qed.

Ltac sends_only_auto cb_lemma :=
  repeat first
    [ apply sends_only_sendTextMessage
    | apply sends_only_forEach; intros ?; apply cb_lemma
    | apply sends_only_silent; first [ apply get_prop_silent
                                     | apply get_prop_opt_silent
                                     | reflexivity ]
    | apply sends_only_bind; [|intros ?]
    | match goal with
      | |- sends_only _ (if ?c then _ else _) => destruct c
      end ].

Lemma sends_only_on_message (cfg : config) (message : json) :
  sends_only cfg (on_message cfg message).
Proof. unfold on_message. sends_only_auto sends_only_sendTextMessage. Qed.

Lemma sends_only_on_change (cfg : config) (change : json) :
  sends_only cfg (on_change cfg change).
Proof. unfold on_change. sends_only_auto sends_only_on_message. Qed.

Lemma sends_only_on_entry (cfg : config) (entry : json) :
  sends_only cfg (on_entry cfg entry).
Proof. unfold on_entry. sends_only_auto sends_only_on_change. Qed.

Lemma sends_only_post_webhook (cfg : config) (req : request) :
  sends_only cfg (post_webhook cfg req).
Proof.
  unfold post_webhook. destruct (verifySignature cfg req).
  - unfold post_webhook_handler. sends_only_auto sends_only_on_entry.
  - apply sends_only_silent. reflexivity.
Qed.

(** [X5]: without both credentials the POST route never starts an
    axios.post, whatever the request: signed or not, well-formed or not,
    acknowledged or ending in an exception. *)
Theorem no_credentials_no_network (cfg : config) (req : request) :
  credentials cfg = false ->
  posts (trace (post_webhook cfg req)) = [].
Proof.
  intros C. rewrite (sends_only_post_webhook cfg req), posts_sent, C. reflexivity.
Qed.

Lemma no_credentials_no_network_witness :
  posts (trace (post_webhook (mkConfig None (Some sample_secret) (Some "EAAG-token") None)
                  (signed_request sample_secret sample_envelope))) = [].
Proof.
  apply (no_credentials_no_network
           (mkConfig None (Some sample_secret) (Some "EAAG-token") None)
           (signed_request sample_secret sample_envelope)).
  reflexivity.
Defined.

(** [X6]: with both credentials set, on any request, the axios.post calls
    the POST route starts are, in order, one per call of the sender; each
    goes to the messages endpoint of the configured phone number id with the
    configured bearer token, and carries the recipient and the text of its
    call in a whatsapp text message to an individual. *)
Theorem posts_mirror_calls (cfg : config) (req : request) :
  credentials cfg = true ->
  map (fun r => (to (data r), text_body (data r))) (posts (trace (post_webhook cfg req)))
  = calls (trace (post_webhook cfg req))
  /\ Forall (fun r =>
               url r = "https://graph.facebook.com/v19.0/"
                         +++ env_text (PHONE_NUMBER_ID cfg) +++ "/messages"
               /\ Authorization r = "Bearer " +++ env_text (WHATSAPP_TOKEN cfg)
               /\ Content_Type r = "application/json"
               /\ messaging_product (data r) = "whatsapp"
               /\ recipient_type (data r) = "individual"
               /\ type (data r) = "text")
            (posts (trace (post_webhook cfg req))).
Proof.
  intros C. rewrite (sends_only_post_webhook cfg req), posts_sent, C, calls_sent.
  generalize (calls (trace (post_webhook cfg req))) as l. intros l. split.
  - rewrite map_map. cbn [outbound_request data to text_body].
    induction l as [|[recipient messageText] l IH]; [reflexivity|].
    cbn [map fst snd]. rewrite IH. reflexivity.
  - apply Forall_forall. intros r Hr. apply in_map_iff in Hr.
    destruct Hr as (c & <- & _). repeat split.
Qed.

Lemma posts_mirror_calls_witness :
  map (fun r => (to (data r), text_body (data r)))
      (posts (trace (post_webhook sample_config
                       (signed_request sample_secret sample_envelope))))
  = calls (trace (post_webhook sample_config
                    (signed_request sample_secret sample_envelope))).
Proof.
  apply (proj1 (posts_mirror_calls sample_config
                  (signed_request sample_secret sample_envelope) eq_refl)).
Defined.

(** [X7]: nothing is started for a request the middleware does not let
    through: an event of the POST route, be it a call of the sender or an
    axios.post, implies that the request carried a prefixed header whose
    decoded signature is the HMAC-SHA256 of its raw body under the configured,
    non-empty secret. *)
Theorem events_need_a_valid_signature (cfg : config) (req : request) (ev : event) :
  In ev (trace (post_webhook cfg req)) ->
  exists h raw secret,
    X_Hub_Signature_256 req = Some h
    /\ String.prefix expectedPrefix h = true
    /\ rawBody req = Some raw
    /\ APP_SECRET cfg = Some secret
    /\ secret <> EmptyString
    /\ Buffer.from_hex (slice 7 h) = HMAC.hmac_sha256 secret raw.
Proof.
  intros I. apply next_inv.
  unfold post_webhook in I.
  destruct (verifySignature cfg req) as [|r]; [reflexivity|].
  cbn in I. contradiction.
Qed.

Lemma events_need_a_valid_signature_witness :
  exists h raw secret,
    X_Hub_Signature_256 (signed_request sample_secret sample_envelope) = Some h
    /\ String.prefix expectedPrefix h = true
    /\ rawBody (signed_request sample_secret sample_envelope) = Some raw
    /\ APP_SECRET sample_config = Some secret
    /\ secret <> EmptyString
    /\ Buffer.from_hex (slice 7 h) = HMAC.hmac_sha256 secret raw.
Proof.
  apply (events_need_a_valid_signature sample_config
           (signed_request sample_secret sample_envelope)
           (Call_sendTextMessage (Some (JStr "1555")) (replyMessage "hi"))).
  unfold post_webhook. rewrite signed_request_passes.
  left. reflexivity.
Defined.

(** ** A delivery that breaks off *)

Lemma bind_of_throw {A B : Type} (m : M A) (k : A -> M B) (e : js_error) :
  result m = Throw e ->
  result (bind m k) = Throw e /\ trace (bind m k) = trace m.
Proof. intros H. unfold bind. rewrite H. split; reflexivity. Qed.

(** A forEach stops at the first item on which the callback throws: the
    items before it have been handled, the items after it are not reached. *)
Lemma iterate_stops (cb : json -> M unit) (good : list json) (bad : json)
  (rest : list json) (e : js_error) :
  (forall x, In x good -> result (cb x) = Normal tt) ->
  result (cb bad) = Throw e ->
  result (iterate cb (good ++ bad :: rest)) = Throw e
  /\ trace (iterate cb (good ++ bad :: rest))
     = flat_map (fun x => trace (cb x)) good ++ trace (cb bad).
Proof.
  intros G Bd. induction good as [|x good IH].
  - cbn [app iterate flat_map]. apply bind_of_throw, Bd.
  - destruct IH as [R T]; [intros y Hy; apply G; right; exact Hy|].
    cbn [app iterate flat_map]. unfold bind.
    rewrite (G x (or_introl eq_refl)). cbn [result trace].
    rewrite R, T, app_assoc. split; reflexivity.
Qed.

Lemma messages_envelope_handled (cfg : config) (req : request) (ms : list json) :
  body req = Some (messages_envelope ms) ->
  post_webhook_handler cfg req
  = (((iterate (on_message cfg) ms ;;; ret tt) ;;; ret tt) ;;; ret (sendStatus 200)).
Proof.
  intros HB. unfold post_webhook_handler. rewrite HB.
  unfold messages_envelope. cbn [get_prop]. step_ret.
  cbn [assoc String.eqb Ascii.eqb Bool.eqb strict_eq_str business_account].
  step_ret. cbn [forEach iterate]. unfold on_entry at 1.
  cbn [get_prop assoc String.eqb Ascii.eqb Bool.eqb]. step_ret.
  cbn [forEach iterate]. unfold on_change at 1.
  cbn [get_prop assoc String.eqb Ascii.eqb Bool.eqb strict_eq_str truthy]. step_ret.
  cbn [get_prop assoc String.eqb Ascii.eqb Bool.eqb strict_eq_str truthy]. step_ret.
  cbn [get_prop assoc String.eqb Ascii.eqb Bool.eqb strict_eq_str truthy forEach].
  step_ret. reflexivity.
Qed.

(** [X8]: when a list of messages holds a null after some well-formed
    messages, the signed delivery ends in a TypeError instead of the 200, yet
    the replies to the messages before the null have been started, one each
    and in order; no reply is started for the messages after it. *)
Theorem replies_sent_before_the_break
  (cfg : config) (req : request) (good rest : list json) :
  verifySignature cfg req = next ->
  body req = Some (messages_envelope (good ++ JNull :: rest)) ->
  forallb wf_message good = true ->
  result (post_webhook cfg req) = Throw TypeError
  /\ calls (trace (post_webhook cfg req)) = map (fun m => reply_to (spec_message m)) good.
Proof.
  intros V HB W. unfold post_webhook. rewrite V.
  rewrite (messages_envelope_handled cfg req _ HB).
  destruct (iterate_stops (on_message cfg) good JNull rest TypeError) as [R T];
    [|reflexivity|].
  { intros m Hm. apply on_message_wf. rewrite forallb_forall in W. apply W, Hm. }
  destruct (bind_of_throw _ (fun _ : unit => ret tt) TypeError R) as [R1 T1].
  destruct (bind_of_throw _ (fun _ : unit => ret tt) TypeError R1) as [R2 T2].
  destruct (bind_of_throw _ (fun _ : unit => ret (sendStatus 200)) TypeError R2)
    as [R3 T3].
  rewrite R3, T3, T2, T1, T. split; [reflexivity|].
  cbn [on_message get_prop trace throw]. rewrite app_nil_r.
  rewrite calls_flat_map. rewrite <- flat_map_singleton.
  rewrite flat_map_concat_map, (flat_map_concat_map (fun m => [reply_to (spec_message m)])).
  f_equal. apply map_ext_in. intros m Hm.
  rewrite forallb_forall in W.
  rewrite (proj2 (on_message_wf cfg m (W m Hm))).
  unfold send_events, reply_to. apply sendTextMessage_starts.
Qed.

Lemma replies_sent_before_the_break_witness :
  result (post_webhook sample_config
            (signed_request sample_secret
               (messages_envelope ([sample_message] ++ JNull :: [sample_image]))))
  = Throw TypeError
  /\ calls (trace (post_webhook sample_config
                     (signed_request sample_secret
                        (messages_envelope ([sample_message] ++ JNull :: [sample_image])))))
     = map (fun m => reply_to (spec_message m)) [sample_message].
Proof.
  apply (replies_sent_before_the_break sample_config
           (signed_request sample_secret
              (messages_envelope ([sample_message] ++ JNull :: [sample_image])))
           [sample_message] [sample_image]).
  - apply signed_request_passes.
  - reflexivity.
  - reflexivity.
Defined.

(** ** The text a reply quotes *)

Lemma get_prop_opt_field (v : jsval) (k : string) :
  get_prop_opt v k = ret (field_of k v).
Proof. destruct v as [[| | | | |]|]; reflexivity. Qed.

Lemma get_prop_object (f : list (string * json)) (k : string) :
  get_prop (Some (JObj f)) k = ret (assoc k f).
Proof. reflexivity. Qed.

(** [X9]: a message object whose text.body is absent or falsy (text
    missing, null or not an object; body missing, null, false, 0 or the empty
    string) is answered with one reply that quotes No Text Body, sent to the
    from of the message, provided that from can be printed. *)
Theorem textless_message_gets_default_reply
  (cfg : config) (f : list (string * json)) (shown : string) :
  ToString (assoc "from" f) = Normal shown ->
  truthy (field_of "body" (field_of "text" (Some (JObj f)))) = false ->
  result (on_message cfg (JObj f)) = Normal tt
  /\ calls (trace (on_message cfg (JObj f)))
     = [(assoc "from" f, replyMessage "No Text Body")].
Proof.
  intros HF HT. unfold on_message.
  rewrite !get_prop_object. step_ret.
  rewrite get_prop_opt_field. step_ret.
  unfold or_else. cbn [field_of] in HT. rewrite HT, HF.
  cbn [ToString ToString_json]. step_ret.
  destruct (bind_then_unit (sendTextMessage cfg (assoc "from" f)
                              (replyMessage "No Text Body"))) as [R T].
  { apply sendTextMessage_starts. }
  rewrite R, T. split; [reflexivity|]. apply sendTextMessage_starts.
Qed.

Lemma textless_message_gets_default_reply_witness :
  result (on_message sample_config
            (JObj [("from", JStr "1555"); ("text", JObj [("body", JStr EmptyString)])]))
  = Normal tt
  /\ calls (trace (on_message sample_config
                     (JObj [("from", JStr "1555");
                            ("text", JObj [("body", JStr EmptyString)])])))
     = [(Some (JStr "1555"), replyMessage "No Text Body")].
Proof.
  apply (textless_message_gets_default_reply sample_config
           [("from", JStr "1555"); ("text", JObj [("body", JStr EmptyString)])] "1555");
    reflexivity.
Defined.

(** ** The earlier middleware *)

Lemma earlier_verifySignature_prefixed (cfg : config) (req : request) (h : string) :
  X_Hub_Signature_256 req = Some h ->
  String.prefix expectedPrefix h = true ->
  Part000.verifySignature cfg req =
    match Part000.hmac_digest_hex (APP_SECRET cfg) (rawBody req) with
    | Throw e => Throw e
    | Normal digest =>
        match signature_mismatch (slice 7 h) digest with
        | Normal true => Normal (respond (sendStatus 401))
        | Normal false => Normal next
        | Throw e => Throw e
        end
    end.
Proof.
  intros H P. unfold Part000.verifySignature.
  rewrite H, P, (prefixed_not_empty h P). reflexivity.
Qed.

(** [X10]: the earlier middleware passes a body signed under the
    configured secret for every secret, the empty string included: it has no
    guard on the secret and uses it as the HMAC key as it is. *)
Theorem earlier_verifySignature_accepts_every_secret
  (B : Buffer.t) (S : string) (cfg : config) (req : request) :
  APP_SECRET cfg = Some S ->
  rawBody req = Some B ->
  X_Hub_Signature_256 req = Some (sign S B) ->
  Part000.verifySignature cfg req = Normal next.
Proof.
  intros HS HB HH.
  destruct (sign_prefixed S B) as [P SL].
  rewrite (earlier_verifySignature_prefixed cfg req _ HH P), HS, HB, SL.
  cbn [Part000.hmac_digest_hex].
  rewrite (signature_mismatch_same (HMAC.hmac_hex S B) (HMAC.hmac_hex S B) eq_refl).
  reflexivity.
Qed.

Lemma earlier_verifySignature_accepts_every_secret_witness :
  Part000.verifySignature (mkConfig None (Some EmptyString) None None)
    (mkRequest (Some (sign EmptyString [])) (Some []) None)
  = Normal next.
Proof.
  apply (earlier_verifySignature_accepts_every_secret [] EmptyString); reflexivity.
Defined.

(** [X11]: in the earlier receiver a POST with a prefixed signature header
    makes the middleware throw a TypeError, where the current one answers
    500 itself, when the secret is not configured or the raw body was not
    captured: createHmac and update throw and the middleware catches
    nothing. *)
Theorem earlier_verifySignature_throws_unconfigured
  (cfg : config) (req : request) (h : string) :
  X_Hub_Signature_256 req = Some h ->
  String.prefix expectedPrefix h = true ->
  APP_SECRET cfg = None \/ rawBody req = None ->
  Part000.verifySignature cfg req = Throw TypeError
  /\ Part000.post_webhook cfg req = throw TypeError.
Proof.
  intros H P U.
  assert (V : Part000.verifySignature cfg req = Throw TypeError).
  { rewrite (earlier_verifySignature_prefixed cfg req h H P).
    destruct U as [-> | ->]; [reflexivity|].
    destruct (APP_SECRET cfg); reflexivity. }
  split; [exact V|]. unfold Part000.post_webhook. rewrite V. reflexivity.
Qed.

Lemma earlier_verifySignature_throws_unconfigured_witness :
  Part000.verifySignature unconfigured (mkRequest (Some "sha256=00") (Some []) None)
  = Throw TypeError
  /\ Part000.post_webhook unconfigured (mkRequest (Some "sha256=00") (Some []) None)
     = throw TypeError.
Proof.
  apply (earlier_verifySignature_throws_unconfigured unconfigured
           (mkRequest (Some "sha256=00") (Some []) None) "sha256=00").
  - reflexivity.
  - reflexivity.
  - left. reflexivity.
Defined.

(** [X12]: the two middlewares agree on every request that comes with a
    raw body when the secret is configured and not empty: the guard and the
    try block added to the current one change nothing there. *)
Theorem middlewares_agree_when_configured
  (cfg : config) (req : request) (raw : Buffer.t) :
  env_truthy (APP_SECRET cfg) = true ->
  rawBody req = Some raw ->
  Part000.verifySignature cfg req = Normal (verifySignature cfg req).
Proof.
  intros S R. destruct (env_truthy_inv _ S) as (secret & HS & NE).
  unfold Part000.verifySignature, verifySignature.
  destruct (X_Hub_Signature_256 req) as [h|]; [|reflexivity].
  destruct (String.eqb h EmptyString); [reflexivity|].
  destruct (String.prefix expectedPrefix h); cbn [negb orb]; [|reflexivity].
  rewrite R, S, HS. cbn [negb Part000.hmac_digest_hex env_text].
  destruct (signature_mismatch_normal
              (slice (String.length expectedPrefix) h) (HMAC.hmac_hex secret raw))
    as [[|] ->]; reflexivity.
Qed.

Lemma middlewares_agree_when_configured_witness :
  Part000.verifySignature sample_config (signed_request sample_secret sample_envelope)
  = Normal (verifySignature sample_config (signed_request sample_secret sample_envelope)).
Proof.
  apply (middlewares_agree_when_configured sample_config
           (signed_request sample_secret sample_envelope)
           (Buffer.from_utf8 (json_text sample_envelope)));
    reflexivity.
Defined.

(** ** The earlier handler *)

Lemma silent_bind {A B : Type} (m : M A) (k : A -> M B) :
  trace m = [] -> (forall a, trace (k a) = []) -> trace (bind m k) = [].
Proof.
  intros Hm Hk. unfold bind. destruct (result m) as [a|e]; cbn [trace];
    [rewrite Hm, Hk; reflexivity | exact Hm].
Qed.

Lemma silent_iterate (cb : json -> M unit) (items : list json) :
  (forall x, trace (cb x) = []) -> trace (iterate cb items) = [].
Proof.
  intros H. induction items as [|x rest IH]; [reflexivity|].
  cbn [iterate]. apply silent_bind; [apply H | intros _; exact IH].
Qed.

Lemma silent_forEach (v : jsval) (cb : json -> M unit) :
  (forall x, trace (cb x) = []) -> trace (forEach v cb) = [].
Proof.
  intros H. destruct v as [[| | | |items|]|]; try reflexivity.
  apply silent_iterate, H.
Qed.

Ltac silent_auto cb_lemma :=
  repeat first
    [ apply get_prop_silent
    | apply get_prop_opt_silent
    | apply silent_forEach; intros ?; apply cb_lemma
    | reflexivity
    | apply silent_bind; [|intros ?]
    | match goal with
      | |- trace (if ?c then _ else _) = [] => destruct c
      end ].

Lemma earlier_on_message_silent (message : json) : trace (Part000.on_message message) = [].
Proof. unfold Part000.on_message. silent_auto get_prop_silent. Qed.

Lemma earlier_on_change_silent (change : json) : trace (Part000.on_change change) = [].
Proof. unfold Part000.on_change. silent_auto earlier_on_message_silent. Qed.

Lemma earlier_on_entry_silent (entry : json) : trace (Part000.on_entry entry) = [].
Proof. unfold Part000.on_entry. silent_auto earlier_on_change_silent. Qed.

(** [X13]: the earlier POST route starts nothing, whatever the request: no
    call of a sender and no axios.post, whether it answers or throws. *)
Theorem earlier_route_is_silent (cfg : config) (req : request) :
  trace (Part000.post_webhook cfg req) = [].
Proof.
  unfold Part000.post_webhook.
  destruct (Part000.verifySignature cfg req) as [[|r]|e]; try reflexivity.
  unfold Part000.post_webhook_handler. silent_auto earlier_on_entry_silent.
Qed.

Lemma iterate_normal_inv (cb : json -> M unit) (items : list json) :
  result (iterate cb items) = Normal tt ->
  forall x, In x items -> result (cb x) = Normal tt.
Proof.
  induction items as [|y rest IH]; intros H x Hx; [contradiction|].
  cbn [iterate] in H. apply bind_normal_inv in H. destruct H as ([] & Hy & Hrest).
  destruct Hx as [<- | Hx]; [exact Hy | exact (IH Hrest x Hx)].
Qed.

(** A forEach that completes with one callback completes with any callback
    that completes wherever the first does. *)
Lemma forEach_completes (v : jsval) (old new : json -> M unit) :
  (forall x, result (old x) = Normal tt -> result (new x) = Normal tt) ->
  result (forEach v old) = Normal tt -> result (forEach v new) = Normal tt.
Proof.
  intros H. destruct v as [[| | | |items|]|]; try discriminate.
  cbn [forEach]. intros R. apply iterate_normal. intros x Hx.
  apply H. exact (iterate_normal_inv old items R x Hx).
Qed.

Lemma get_prop_ret (v : jsval) (k : string) (a : jsval) :
  result (get_prop v k) = Normal a -> get_prop v k = ret a.
Proof.
  destruct v as [[| | | | |f]|]; cbn; try discriminate; intros H; injection H as <-;
    reflexivity.
Qed.

Lemma on_message_completes (cfg : config) (message : json) :
  result (Part000.on_message message) = Normal tt ->
  result (on_message cfg message) = Normal tt.
Proof.
  unfold Part000.on_message, on_message. intros H.
  apply bind_normal_inv in H. destruct H as (from & Hfrom & H).
  apply bind_normal_inv in H. destruct H as (text & Htext & H).
  rewrite (get_prop_ret _ _ _ Hfrom), (get_prop_ret _ _ _ Htext). step_ret.
  rewrite get_prop_opt_field in H |- *. rewrite bind_ret_l in H. step_ret.
  apply bind_normal_inv in H. destruct H as (s1 & H1 & H).
  apply bind_normal_inv in H. destruct H as (s2 & H2 & _).
  cbn [lift result] in H1, H2.
  assert (HT : exists s, ToString (or_else (field_of "body" text)
                                           (Some (JStr "No Text Body"))) = Normal s).
  { unfold or_else. destruct (truthy (field_of "body" text));
      [exists s2; exact H2 | eexists; reflexivity]. }
  destruct HT as [s HT]. rewrite HT, H1. step_ret.
  apply bind_then_unit, sendTextMessage_starts.
Qed.

Lemma on_change_completes (cfg : config) (change : json) :
  result (Part000.on_change change) = Normal tt ->
  result (on_change cfg change) = Normal tt.
Proof.
  unfold Part000.on_change, on_change. intros H.
  apply bind_normal_inv in H. destruct H as (value & Hvalue & H).
  apply bind_normal_inv in H. destruct H as (field & Hfield & H).
  rewrite (get_prop_ret _ _ _ Hvalue), (get_prop_ret _ _ _ Hfield). step_ret.
  apply bind_normal_inv in H. destruct H as ([] & H & _).
  destruct (strict_eq_str field "messages"); [|reflexivity].
  apply bind_normal_inv in H. destruct H as (messages & Hm & H).
  rewrite (get_prop_ret _ _ _ Hm) in H |- *. step_ret.
  destruct (truthy messages); [|reflexivity].
  rewrite bind_ret_l in H. step_ret.
  revert H. apply forEach_completes, on_message_completes.
Qed.

Lemma on_entry_completes (cfg : config) (entry : json) :
  result (Part000.on_entry entry) = Normal tt ->
  result (on_entry cfg entry) = Normal tt.
Proof.
  unfold Part000.on_entry, on_entry. intros H.
  apply bind_normal_inv in H. destruct H as (changes & Hc & H).
  rewrite (get_prop_ret _ _ _ Hc). step_ret.
  revert H. apply forEach_completes, on_change_completes.
Qed.

(** [X14]: adding the replies lost no acknowledgment: whenever the earlier
    handler answers a request, the current handler answers it too, with the
    same 200, under any configuration. *)
Theorem replies_keep_acknowledgments (cfg : config) (req : request) (r : response) :
  result (Part000.post_webhook_handler req) = Normal r ->
  result (post_webhook_handler cfg req) = Normal r.
Proof.
  unfold Part000.post_webhook_handler, post_webhook_handler. intros H.
  apply bind_normal_inv in H. destruct H as (object & Ho & H).
  rewrite (get_prop_ret _ _ _ Ho). step_ret.
  apply bind_normal_inv in H. destruct H as ([] & H & Hr).
  cbn in Hr. injection Hr as <-.
  assert (N : result (if strict_eq_str object business_account
                      then entry <- get_prop (body req) "entry" ;;
                           forEach entry (on_entry cfg)
                      else ret tt) = Normal tt).
  { destruct (strict_eq_str object business_account); [|reflexivity].
    apply bind_normal_inv in H. destruct H as (entry & He & H).
    rewrite (get_prop_ret _ _ _ He). step_ret.
    revert H. apply forEach_completes, on_entry_completes. }
  unfold bind at 1. rewrite N. reflexivity.
Qed.

Lemma replies_keep_acknowledgments_witness :
  result (post_webhook_handler sample_config (signed_request sample_secret sample_envelope))
  = Normal (sendStatus 200).
Proof.
  apply (replies_keep_acknowledgments sample_config
           (signed_request sample_secret sample_envelope) (sendStatus 200)).
  reflexivity.
Defined.

(** ** Signatures that are not canonical *)

Lemma from_hex_app (b : Buffer.t) (tail : string) :
  Buffer.from_hex (String.append (Buffer.to_hex b) tail) = b ++ Buffer.from_hex tail.
Proof.
  induction b as [|x rest IH]; [reflexivity|].
  cbn [Buffer.to_hex String.append Buffer.from_hex app].
  destruct (hex_pair x) as (Hhi & Hlo & Hx).
  cbv zeta in Hhi, Hlo, Hx |- *.
  rewrite Hhi, Hlo, Hx, IH. reflexivity.
Qed.

(** [X15]: the signature header is not canonical.  After the 64 digits of
    the right digest the middleware ignores whatever decodes to nothing (a
    single character, or a tail that starts with a pair that is not hex): such
    a header passes like the exact one. *)
Theorem signature_tail_is_ignored
  (B : Buffer.t) (S tail : string) (cfg : config) (req : request) :
  S <> EmptyString ->
  APP_SECRET cfg = Some S ->
  rawBody req = Some B ->
  Buffer.from_hex tail = [] ->
  X_Hub_Signature_256 req = Some (String.append (sign S B) tail) ->
  verifySignature cfg req = next.
Proof.
  intros NE HS HB HT HH.
  rewrite (verifySignature_prefixed cfg req _ HH eq_refl), HB, HS.
  rewrite (env_truthy_some S NE). cbn [negb env_text].
  rewrite signature_mismatch_same; [reflexivity|].
  change (slice 7 (String.append (sign S B) tail))
    with (String.append (Buffer.to_hex (HMAC.hmac_sha256 S B)) tail).
  unfold HMAC.hmac_hex. rewrite from_hex_app, from_hex_to_hex, HT.
  apply app_nil_r.
Qed.

Lemma signature_tail_is_ignored_witness :
  verifySignature sample_config
    (mkRequest
       (Some (String.append (sign sample_secret (Buffer.from_utf8 (json_text sample_envelope)))
                            "-tampered"))
       (Some (Buffer.from_utf8 (json_text sample_envelope)))
       (Some sample_envelope))
  = next.
Proof.
  apply (signature_tail_is_ignored (Buffer.from_utf8 (json_text sample_envelope))
           sample_secret "-tampered");
    [discriminate | reflexivity | reflexivity | reflexivity | reflexivity].
Defined.
